(** * The SPDO application repository (app.py): catalog store and handlers

    A shallow embedding of [app.py]: the loader [load_areas_from_sf], the
    permission lookup, and the handlers of the management tab, over a model
    of the table [TB_REPO_APPS_AREAS].

    What the program takes from its libraries (the json module, [str.lower],
    [==]) and from the warehouse (PARSE_JSON, the text of a VARIANT) is an
    interface, [Python] and [Snowflake]; the definitions and the theorems
    are stated for every implementation of it.  [Reference] gives one
    implementation that computes, used to run the handlers on concrete
    inputs. *)

From Stdlib Require Import ZArith NArith String Ascii DecimalString Lia.
From stdpp Require Import base option list gmap sorting.

Set Warnings "-register-all".
Local Open Scope N_scope.
Local Open Scope list_scope.

(** ** Python strings

    A [str] is a sequence of Unicode code points. *)

Abbreviation char := N (only parsing).
Abbreviation str := (list N) (only parsing).

(** [utf8 acc more bs] reads UTF-8 bytes as code points; it is used to
    write the string literals of the source as they stand. *)
Fixpoint utf8 (acc : N) (more : nat) (bs : list N) : str :=
  match bs with
  | [] => []
  | b :: bs' =>
      if b <? 128 then b :: utf8 0 0%nat bs'
      else if b <? 192 then
        let acc' := acc * 64 + (b - 128) in
        match more with
        | 0%nat | 1%nat => acc' :: utf8 0 0%nat bs'
        | S more' => utf8 acc' more' bs'
        end
      else if b <? 224 then utf8 (b - 192) 1%nat bs'
      else if b <? 240 then utf8 (b - 224) 2%nat bs'
      else utf8 (b - 240) 3%nat bs'
  end.

Definition py (s : string) : str :=
  utf8 0 0%nat (map N_of_ascii (list_ascii_of_string s)).

(** [str(n)] for a non-negative int. *)
Definition str_of_nat (n : nat) : str :=
  py (NilZero.string_of_uint (Nat.to_uint n)).

(** [str(z)] for an int. *)
Definition str_of_Z (z : Z) : str :=
  py (NilZero.string_of_int (Z.to_int z)).

(** [s.replace(c, t)] for a one-character pattern [c]. *)
Definition str_replace (c : char) (t : str) (s : str) : str :=
  flat_map (fun x => if x =? c then t else [x]) s.

(** Order of strings by code point, the order of ORDER BY on a text column. *)
Fixpoint str_leb (a b : str) : bool :=
  match a, b with
  | [], _ => true
  | _ :: _, [] => false
  | x :: a', y :: b' =>
      if x <? y then true else if x =? y then str_leb a' b' else false
  end.

Definition str_eqb (a b : str) : bool := bool_decide (a = b).

(** ** Python values

    The values [json.loads] can build.  A [dict] is kept as its items in
    insertion order.  A float is kept as the numeral that denotes it (no
    floating point arithmetic is modelled). *)

Inductive value : Type :=
| VNone
| VBool (b : bool)
| VInt (z : Z)
| VFloat (numeral : str)
| VStr (s : str)
| VList (items : list value)
| VDict (items : list (str * value)).

Inductive result (E A : Type) : Type :=
| Ok (a : A)
| Raise (e : E).
Arguments Ok {E A} a.
Arguments Raise {E A} e.

Definition bind {E A B} (r : result E A) (k : A -> result E B) : result E B :=
  match r with
  | Ok a => k a
  | Raise e => Raise e
  end.

Notation "x <- r ;; k" := (bind r (fun x => k))
  (at level 100, r at next level, right associativity, only parsing).

(** The attributes of [json.JSONDecodeError] the program reads. *)
Record JSONDecodeError : Type :=
  { msg : str; pos : nat; lineno : nat; colno : nat }.

(** What the warehouse can answer to a statement instead of running it. *)
Inductive sql_error : Type :=
| CompilationError
| InvalidJson
| UniqueViolation.

(** The exceptions that reach the program.  [DecodeError] is
    json.JSONDecodeError; [ValueError] stands for a ValueError that is not
    one (json.loads raises it for an integer of more than 4300 digits). *)
Inductive exn : Type :=
| DecodeError (e : JSONDecodeError)
| ValueError
| RecursionError
| SnowparkSQLException (e : sql_error)
| StopIteration
| TypeError
| KeyError (k : str).

(** A digit other than 0 in the mantissa, or one of the constants NaN and
    Infinity: the float is not zero. *)
Definition float_nonzero (numeral : str) : bool :=
  (fix go (s : str) : bool :=
     match s with
     | [] => false
     | c :: s' =>
         if (c =? 101) || (c =? 69) then false
         else if ((49 <=? c) && (c <=? 57)) || (c =? 78) || (c =? 73) || (c =? 110) || (c =? 105)
              then true else go s'
     end) numeral.

(** [bool(v)]. *)
Definition truthy (v : value) : bool :=
  match v with
  | VNone => false
  | VBool b => b
  | VInt z => negb (z =? 0)%Z
  | VFloat n => float_nonzero n
  | VStr s => negb (bool_decide (s = []))
  | VList l => match l with [] => false | _ => true end
  | VDict d => match d with [] => false | _ => true end
  end.

(** [isinstance(v, list)]. *)
Definition isinstance_list (v : value) : bool :=
  match v with VList _ => true | _ => false end.

(** [d[k]] on the items of a dict. *)
Fixpoint dict_get (k : str) (d : list (str * value)) : option value :=
  match d with
  | [] => None
  | (k', v) :: d' => if str_eqb k' k then Some v else dict_get k d'
  end.

(** [v[k]] for a string [k]: only a dict can be subscripted by a string. *)
Definition getitem (v : value) (k : str) : result exn value :=
  match v with
  | VDict d => match dict_get k d with Some x => Ok x | None => Raise (KeyError k) end
  | _ => Raise TypeError
  end.

(** [iter(v)]: the elements a [for] goes through. *)
Definition py_iter (v : value) : result exn (list value) :=
  match v with
  | VList l => Ok l
  | VDict d => Ok (map (fun kv => VStr (fst kv)) d)
  | VStr s => Ok (map (fun c => VStr [c]) s)
  | _ => Raise TypeError
  end.

(** ** The libraries and the warehouse as interfaces

    [json.loads] returns a value or raises: JSONDecodeError, on a position
    of the text, for a text that is not JSON; ValueError for an integer of
    more digits than the interpreter converts (4300 by default);
    RecursionError for a nesting deeper than the interpreter follows.
    [py_eq] is [==] on values. *)

Class Python : Type :=
  { json_loads : str -> result exn value;
    json_dumps : value -> str;
    str_lower : str -> str;
    py_eq : value -> value -> bool }.

(** A row holds NAME and LINKS as [row["NAME"]] and [row["LINKS"]] give them
    to the client: a VARIANT arrives as a [str], its JSON text. *)
Record row : Type := { NAME : str; LINKS : value }.

Abbreviation table := (list row) (only parsing).

(** The statements the program writes; each argument is the text spliced
    between a pair of quotes. *)
Inductive statement : Type :=
| INSERT_AREA (name json_text : str)
    (* INSERT INTO TB_REPO_APPS_AREAS (NAME, LINKS)
       SELECT '<name>', PARSE_JSON('<json_text>') *)
| UPDATE_AREA (new_name json_text old_name : str)
    (* UPDATE TB_REPO_APPS_AREAS
       SET NAME = '<new_name>', LINKS = PARSE_JSON('<json_text>')
       WHERE NAME = '<old_name>' *)
| UPDATE_LINKS (json_text name : str)
    (* UPDATE TB_REPO_APPS_AREAS SET LINKS = PARSE_JSON('<json_text>')
       WHERE NAME = '<name>' *)
| DELETE_AREA (name : str).
    (* DELETE FROM TB_REPO_APPS_AREAS WHERE NAME = '<name>' *)

(** [PARSE_JSON] reads a text as a VARIANT (or fails); [variant_text] is the
    text in which the connector hands a VARIANT to the client.

    The program splices its texts into the statement between quotes.  When
    a spliced text is not the body of a string constant (a quote in it ends
    the constant early, or a backslash at its end takes the closing quote),
    the text sent is not the statement the program wrote: the warehouse
    refuses it, or runs whatever statement the text then is, which may
    insert, rename or delete any rows.  [other_statement] is what it does;
    nothing is assumed of it. *)
Class Snowflake : Type :=
  { PARSE_JSON : str -> option value;
    variant_text : value -> str;
    NAME_is_key : bool;
    other_statement : statement -> table -> result sql_error table }.

(** ** The table TB_REPO_APPS_AREAS *)

Definition names (t : table) : list str := map NAME t.

Definition hex_digit (c : char) : option N :=
  if (48 <=? c) && (c <=? 57) then Some (c - 48)
  else if (97 <=? c) && (c <=? 102) then Some (c - 87)
  else if (65 <=? c) && (c <=? 70) then Some (c - 55)
  else None.

(** The value of [digits], read in base 16, when all of them are digits. *)
Fixpoint hex_value (acc : N) (digits : str) : option N :=
  match digits with
  | [] => Some acc
  | c :: rest =>
      match hex_digit c with
      | Some d => hex_value (acc * 16 + d) rest
      | None => None
      end
  end.

(** The character a backslash and [c] stand for in a string constant,
    for the one-character sequences. *)
Definition simple_escape (c : char) : char :=
  if c =? 110 then 10        (* \n *)
  else if c =? 116 then 9    (* \t *)
  else if c =? 114 then 13   (* \r *)
  else if c =? 98 then 8     (* \b *)
  else if c =? 102 then 12   (* \f *)
  else if c =? 48 then 0     (* \0 *)
  else c.                    (* quote, double quote, backslash, and any
                                other character: the backslash goes *)

(** The string a single-quoted constant denotes, for the [body] spliced
    between its quotes, by the rules of Snowflake for such constants: a
    backslash starts an escape sequence (the program's own [escape_quotes]
    counts on it) and two quotes are one.  [None] when [body] is not the
    body of a constant: a lone quote ends the constant early, and a
    backslash at the end takes the closing quote. *)
Fixpoint string_constant (fuel : nat) (body : str) : option str :=
  match fuel with
  | O => None
  | S fuel' =>
      match body with
      | [] => Some []
      | c :: rest =>
          if c =? 39 then
            match rest with
            | c' :: rest' =>
                if c' =? 39 then cons 39 <$> string_constant fuel' rest' else None
            | [] => None
            end
          else if c =? 92 then
            match rest with
            | [] => None
            | e :: rest' =>
                if e =? 117 then
                  match hex_value 0 (take 4 rest') with
                  | Some u =>
                      if bool_decide (length (take 4 rest') = 4%nat)
                      then cons u <$> string_constant fuel' (drop 4 rest')
                      else None
                  | None => None
                  end
                else cons (simple_escape e) <$> string_constant fuel' rest'
            end
          else cons c <$> string_constant fuel' rest
      end
  end.

Definition constant (body : str) : option str :=
  string_constant (S (length body)) body.

(** The texts a statement splices between quotes, and whether each is the
    body of a constant: the text sent is then the statement as written. *)
Definition spliced (q : statement) : list str :=
  match q with
  | INSERT_AREA name json_text => [name; json_text]
  | UPDATE_AREA new_name json_text old_name => [new_name; json_text; old_name]
  | UPDATE_LINKS json_text name => [json_text; name]
  | DELETE_AREA name => [name]
  end.

Definition as_written (q : statement) : Prop :=
  Forall (fun body => is_Some (constant body)) (spliced q).

(** What [row["LINKS"]] gives for a cell that holds the VARIANT [v]. *)
Definition stored `{Snowflake} (v : value) : value := VStr (variant_text v).

(** The declaration of the table is not in the source.  Whether NAME is a
    key the warehouse enforces is the parameter [NAME_is_key]: when it is,
    a statement that would leave two rows of one name is refused. *)
Definition violates_key `{Snowflake} (t : table) : bool :=
  NAME_is_key && negb (bool_decide (NoDup (names t))).

(** The table after statement [q], or the error the warehouse answers.
    For a statement sent as written, the constants are read and the
    document is parsed before any row is looked at; INSERT adds a row at
    the end, UPDATE rewrites the rows whose NAME is the one of the WHERE
    clause, DELETE drops them.  For any other text, see [other_statement]. *)
Definition execute `{Snowflake} (q : statement) (t : table) : result sql_error table :=
  match q with
  | INSERT_AREA name json_text =>
      match constant name, constant json_text with
      | Some n, Some j =>
          match PARSE_JSON j with
          | Some v =>
              let t' := t ++ [{| NAME := n; LINKS := stored v |}] in
              if violates_key t' then Raise UniqueViolation else Ok t'
          | None => Raise InvalidJson
          end
      | _, _ => other_statement q t
      end
  | UPDATE_AREA new_name json_text old_name =>
      match constant new_name, constant json_text, constant old_name with
      | Some n, Some j, Some o =>
          match PARSE_JSON j with
          | Some v =>
              let t' := map (fun r => if str_eqb (NAME r) o
                                      then {| NAME := n; LINKS := stored v |}
                                      else r) t in
              if bool_decide (o ∈ names t) && violates_key t'
              then Raise UniqueViolation else Ok t'
          | None => Raise InvalidJson
          end
      | _, _, _ => other_statement q t
      end
  | UPDATE_LINKS json_text name =>
      match constant json_text, constant name with
      | Some j, Some o =>
          match PARSE_JSON j with
          | Some v =>
              Ok (map (fun r => if str_eqb (NAME r) o
                                then {| NAME := NAME r; LINKS := stored v |}
                                else r) t)
          | None => Raise InvalidJson
          end
      | _, _ => other_statement q t
      end
  | DELETE_AREA name =>
      match constant name with
      | Some o => Ok (filter (fun r => NAME r <> o) t)
      | None => other_statement q t
      end
  end.

Definition name_le (r1 r2 : row) : Prop := Is_true (str_leb (NAME r1) (NAME r2)).

#[global] Instance name_le_dec : RelDecision name_le :=
  fun r1 r2 => Is_true_dec (str_leb (NAME r1) (NAME r2)).

(** [session.table("TB_REPO_APPS_AREAS").select("NAME", "LINKS")
    .order_by("NAME").collect()]. *)
Definition select_order_by_NAME (t : table) : table := merge_sort name_le t.

(** A session: the table, and the statements sent so far. *)
Record session : Type := { rows : list row; sent : list statement }.

(** [session.sql(q).collect()]. *)
Definition session_sql `{Snowflake} (q : statement) (s : session)
  : result sql_error unit * session :=
  match execute q (rows s) with
  | Ok t' => (Ok tt, {| rows := t'; sent := sent s ++ [q] |})
  | Raise e => (Raise e, {| rows := rows s; sent := sent s ++ [q] |})
  end.

(** ** What the page shows *)

(** The text of [f"{prefix}{e}"] is kept as its two parts. *)
Inductive message : Type :=
| Text (s : str)
| TextExc (prefix : str) (e : exn).

Inductive ui : Type :=
| st_error (m : message)
| st_success (m : str)
| st_stop
| st_rerun
| uncaught (e : exn).
    (* an exception that no [except] of the handler catches: the run of
       the script ends on it *)

(** An entry of [areas]: the dict with the keys name and links. *)
Record area : Type := { name : str; links : value }.

Inductive view : Type :=
| Warning (m : str)
| Expanders (shown : list area).

(** The values of [raw_permissions]: the string all, or a list of names. *)
Inductive permission : Type :=
| All
| Only (allowed : list str).

Section App.
Context `{Python} `{Snowflake}.

(** *** load_areas_from_sf *)

(** The body of the loop: the links of one row.  [except
    json.JSONDecodeError: pass] catches that exception alone; any other
    leaves the loop and the function. *)
Definition links_of_row (raw : value) : result exn value :=
  match raw with
  | VStr text =>
      match json_loads text with
      | Ok v => Ok v
      | Raise (DecodeError _) => Ok (VList [])
      | Raise e => Raise e
      end
  | _ => Ok (if truthy raw then raw else VList [])
  end.

(** The loop over the rows collected. *)
Fixpoint load_rows (df : list row) : result exn (list area) :=
  match df with
  | [] => Ok []
  | r :: rest =>
      links <- links_of_row (LINKS r);;
      areas <- load_rows rest;;
      Ok ({| name := NAME r; links := links |} :: areas)
  end.

Definition load_areas_from_sf (t : table) : result exn (list area) :=
  load_rows (select_order_by_NAME t).

(** *** Permissions and tabs *)

Definition raw_permissions : list (str * permission) :=
  [ (py "spdo", All);
    (py "test_user",
     Only [py "Cadastramento e Governança BP"; py "Coleta Tradicional"]) ].

(** [{k.lower(): v for k, v in raw_permissions.items()}]: a later item
    replaces an earlier one with the same key. *)
Definition user_permissions : gmap (list N) permission :=
  foldl (fun m kv => <[str_lower kv.1 := kv.2]> m) ∅ raw_permissions.

(** [permitted], from the username of the session. *)
Definition permitted (session_username : str) : permission :=
  let username := str_lower session_username in
  default (Only []) (user_permissions !! username).

Definition tab_names (p : permission) : list str :=
  match p with
  | All => [py "Aplicações"; py "Gerenciamento"]
  | Only _ => [py "Aplicações"]
  end.

(** [tabs[1] if len(tabs) > 1 else None]. *)
Definition tab_manage (p : permission) : option str :=
  if bool_decide (1 < length (tab_names p))%nat then tab_names p !! 1%nat else None.

Definition areas_to_show (p : permission) (areas : list area) : list area :=
  match p with
  | All => areas
  | Only allowed => filter (fun a => name a ∈ allowed) areas
  end.

Definition tab_view (p : permission) (areas : list area) : view :=
  match areas_to_show p areas with
  | [] => Warning (py "Você não possui acesso a nenhuma área.")
  | shown => Expanders shown
  end.

(** *** Areas: add, update, delete *)

Definition invalid_json (e : JSONDecodeError) : str :=
  py "JSON inválido: " ++ msg e ++ py " (linha " ++ str_of_nat (lineno e)
     ++ py ", coluna " ++ str_of_nat (colno e) ++ py ")".

(** [s.replace("'", "\\'")]: a backslash before every quote. *)
Definition escape_quotes (s : str) : str := str_replace 39 [92; 39] s.

Definition btn_add_area (new_area new_links_json : str) (s : session)
  : list ui * session :=
  match json_loads new_links_json with
  | Raise (DecodeError e) => ([st_error (Text (invalid_json e)); st_stop], s)
  | Raise e => ([uncaught e], s)
  | Ok parsed_links =>
      if negb (isinstance_list parsed_links)
      then ([st_error (Text (py "O JSON deve ser uma **lista** de objetos.")); st_stop], s)
      else
        let json_str := escape_quotes (json_dumps parsed_links) in
        match session_sql (INSERT_AREA new_area json_str) s with
        | (Ok _, s') => ([st_success (py "Área adicionada com sucesso!"); st_rerun], s')
        | (Raise e, s') =>
            ([st_error (TextExc (py "Erro ao adicionar área: ") (SnowparkSQLException e))], s')
        end
  end.

Definition btn_upd_area (sel new_area_name new_links_json : str) (s : session)
  : list ui * session :=
  match json_loads new_links_json with
  | Raise (DecodeError e) => ([st_error (Text (invalid_json e))], s)
  | Raise e => ([st_error (TextExc (py "Erro ao atualizar área: ") e)], s)
  | Ok parsed_links =>
      let json_str := escape_quotes (json_dumps parsed_links) in
      match session_sql (UPDATE_AREA new_area_name json_str sel) s with
      | (Ok _, s') => ([st_success (py "Área atualizada com sucesso!"); st_rerun], s')
      | (Raise e, s') =>
          ([st_error (TextExc (py "Erro ao atualizar área: ") (SnowparkSQLException e))], s')
      end
  end.

Definition btn_del_area (sel : str) (s : session) : list ui * session :=
  match session_sql (DELETE_AREA sel) s with
  | (Ok _, s') => ([st_success (py "Área deletada com sucesso!"); st_rerun], s')
  | (Raise e, s') =>
      ([st_error (TextExc (py "Erro ao deletar área: ") (SnowparkSQLException e))], s')
  end.

(** *** Projects: add, delete *)

(** [next(a for a in areas if a["name"] == sel_area)]. *)
Definition find_area (areas : list area) (sel_area : str) : result exn area :=
  match List.find (fun a => str_eqb (name a) sel_area) areas with
  | Some a => Ok a
  | None => Raise StopIteration
  end.

(** [[l["name"] for l in items]]. *)
Fixpoint proj_names (items : list value) : result exn (list value) :=
  match items with
  | [] => Ok []
  | l :: rest =>
      n <- getitem l (py "name");;
      ns <- proj_names rest;;
      Ok (n :: ns)
  end.

(** [[l for l in items if l["name"] != sel_proj]]. *)
Fixpoint without_project (sel_proj : value) (items : list value)
  : result exn (list value) :=
  match items with
  | [] => Ok []
  | l :: rest =>
      n <- getitem l (py "name");;
      kept <- without_project sel_proj rest;;
      Ok (if py_eq n sel_proj then kept else l :: kept)
  end.

(** [a + b] for [a] the links of an area and [b] a list. *)
Definition list_add (a : value) (b : list value) : result exn value :=
  match a with
  | VList l => Ok (VList (l ++ b))
  | _ => Raise TypeError
  end.

Definition btn_add_proj (areas : list area) (sel_area proj_name sublinks_json : str)
    (s : session) : list ui * session :=
  match json_loads sublinks_json with
  | Raise (DecodeError _) => ([st_error (Text (py "JSON inválido nos sublinks."))], s)
  | Raise e => ([st_error (TextExc (py "Erro ao adicionar projeto: ") e)], s)
  | Ok new_sublinks =>
      match (area_obj <- find_area areas sel_area;;
             list_add (links area_obj)
               [VDict [(py "name", VStr proj_name); (py "sublinks", new_sublinks)]]) with
      | Raise e => ([st_error (TextExc (py "Erro ao adicionar projeto: ") e)], s)
      | Ok updated_links =>
          match session_sql (UPDATE_LINKS (json_dumps updated_links) sel_area) s with
          | (Ok _, s') => ([st_success (py "Projeto adicionado com sucesso!"); st_rerun], s')
          | (Raise e, s') =>
              ([st_error (TextExc (py "Erro ao adicionar projeto: ")
                            (SnowparkSQLException e))], s')
          end
      end
  end.

(** The expander of the delete form, drawn before the button is read:
    an exception here is not caught. *)
Definition del_proj_form (areas : list area) (sel_area : str)
  : result exn (area * list value) :=
  area_obj <- find_area areas sel_area;;
  items <- py_iter (links area_obj);;
  options <- proj_names items;;
  Ok (area_obj, options).

Definition btn_del_proj (areas : list area) (sel_area : str) (sel_proj : value)
    (s : session) : result exn (list ui * session) :=
  form <- del_proj_form areas sel_area;;
  let area_obj := fst form in
  Ok (match (items <- py_iter (links area_obj);; without_project sel_proj items) with
      | Raise e => ([st_error (TextExc (py "Erro ao deletar projeto: ") e)], s)
      | Ok updated_links =>
          match session_sql (UPDATE_LINKS (json_dumps (VList updated_links)) sel_area) s with
          | (Ok _, s') => ([st_rerun], s')
          | (Raise e, s') =>
              ([st_error (TextExc (py "Erro ao deletar projeto: ")
                            (SnowparkSQLException e))], s')
          end
      end).

End App.

(** ** A reference implementation of the interfaces

    The decoder follows the scanner of CPython's json module (messages and
    positions of its errors included) and the encoder its default settings
    (ensure_ascii, the separators comma-space and colon-space); an integer
    of more than 4300 digits raises ValueError.  Not modelled: the value of
    a numeral with a fraction or an exponent, kept as the text of the
    numeral (so a float is written as it was read, is equal only to a float
    of the same numeral, and is zero only when its digits are); the depth
    at which the interpreter raises RecursionError, which depends on its
    state (the reference never raises it); the case mapping of [str.lower]
    outside ASCII and Latin-1.  The warehouse reads and writes JSON with
    the same decoder and encoder, and refuses every text that is not a
    statement as written. *)

Module Reference.

Definition is_ws (c : char) : bool :=
  (c =? 32) || (c =? 9) || (c =? 10) || (c =? 13).

Definition is_digit (c : char) : bool := (48 <=? c) && (c <=? 57).

Fixpoint skip_ws (s : str) : str :=
  match s with
  | c :: s' => if is_ws c then skip_ws s' else s
  | [] => []
  end.

(** The longest prefix of digits, and what follows it. *)
Fixpoint span_digits (s : str) : str * str :=
  match s with
  | c :: s' =>
      if is_digit c then let '(d, r) := span_digits s' in (c :: d, r) else ([], s)
  | [] => ([], [])
  end.

Definition digits_value (d : str) : Z :=
  fold_left (fun acc c => (acc * 10 + Z.of_N (c - 48))%Z) d 0%Z.

(** [s[idx:].startswith(p)], and the rest of [s] after [p]. *)
Fixpoint strip_prefix (p s : str) : option str :=
  match p, s with
  | [], _ => Some s
  | a :: p', b :: s' => if a =? b then strip_prefix p' s' else None
  | _ :: _, [] => None
  end.

(** An error of the scanner: the message, and how much of the document
    was left where it stopped; or the ValueError of [int] on a numeral of
    too many digits. *)
Inductive scan_error : Type :=
| ScanError (m : string) (remaining : nat)
| IntMaxStrDigits.

(** sys.get_int_max_str_digits(), by default. *)
Definition int_max_str_digits : nat := 4300.

(** The number of digits of the integer numeral read at the head of [s],
    where [r] is what follows the numeral; the sign is not counted. *)
Definition int_digits (s r : str) : nat :=
  (length s - length r
   - match s with
     | c :: _ => if (c =? 45)%N then 1 else 0
     | [] => 0
     end)%nat.

Definition expecting_value (s : str) : scan_error :=
  ScanError "Expecting value" (length s).

(** NUMBER_RE: an optional minus and an integer part without leading
    zeros; then, each only when complete, a point with digits, and an
    exponent.  With neither of these the numeral is an int. *)
Definition match_number (s : str) : option (value * str) :=
  let '(sign, s1) := match s with
                     | c :: s' => if c =? 45 then ([45], s') else ([], s)
                     | [] => ([], s)
                     end in
  let integer :=
    match s1 with
    | c :: s2 =>
        if c =? 48 then Some ([48], s2)
        else if is_digit c then let '(d, r) := span_digits s2 in Some (c :: d, r)
        else None
    | [] => None
    end in
  match integer with
  | None => None
  | Some (int_digits, s3) =>
      let '(frac, s4) :=
        match s3 with
        | c :: s' =>
            if c =? 46 then
              match span_digits s' with
              | ([], _) => ([], s3)
              | (d, r) => (46 :: d, r)
              end
            else ([], s3)
        | [] => ([], s3)
        end in
      let '(exp, s5) :=
        match s4 with
        | c :: s' =>
            if (c =? 101) || (c =? 69) then
              let '(esign, s'') :=
                match s' with
                | c' :: r => if (c' =? 43) || (c' =? 45) then ([c'], r) else ([], s')
                | [] => ([], s')
                end in
              match span_digits s'' with
              | ([], _) => ([], s4)
              | (d, r) => (c :: esign ++ d, r)
              end
            else ([], s4)
        | [] => ([], s4)
        end in
      match frac, exp with
      | [], [] =>
          let n := digits_value int_digits in
          Some (VInt (match sign with [] => n | _ => - n end)%Z, s5)
      | _, _ => Some (VFloat (sign ++ int_digits ++ frac ++ exp), s5)
      end
  end.

(** The character of a one-letter escape of a JSON string (BACKSLASH). *)
Definition backslash (c : char) : option char :=
  if c =? 34 then Some 34
  else if c =? 92 then Some 92
  else if c =? 47 then Some 47
  else if c =? 98 then Some 8
  else if c =? 102 then Some 12
  else if c =? 110 then Some 10
  else if c =? 114 then Some 13
  else if c =? 116 then Some 9
  else None.

(** Four hexadecimal digits at the head of [s]. *)
Definition decode_uXXXX (s : str) : option (N * str) :=
  if bool_decide (length (take 4 s) = 4%nat)
  then match hex_value 0 (take 4 s) with
       | Some u => Some (u, drop 4 s)
       | None => None
       end
  else None.

(** scanstring, from the character after the opening quote; [start] is
    what was left of the document at that quote. *)
Fixpoint scanstring (fuel : nat) (start : nat) (acc : str) (s : str)
  : result scan_error (str * str) :=
  match fuel with
  | O => Raise (ScanError "Unterminated string starting at" start)
  | S fuel' =>
      match s with
      | [] => Raise (ScanError "Unterminated string starting at" start)
      | c :: s' =>
          if c =? 34 then Ok (rev acc, s')
          else if c =? 92 then
            match s' with
            | [] => Raise (ScanError "Unterminated string starting at" start)
            | e :: s'' =>
                if e =? 117 then
                  match decode_uXXXX s'' with
                  | None => Raise (ScanError "Invalid \uXXXX escape" (length s'))
                  | Some (u, r) =>
                      let pair :=
                        if (55296 <=? u) && (u <=? 56319) then
                          match strip_prefix [92; 117] r with
                          | Some r' =>
                              match decode_uXXXX r' with
                              | Some (u2, r'') =>
                                  if (56320 <=? u2) && (u2 <=? 57343)
                                  then Some (65536 + (u - 55296) * 1024 + (u2 - 56320), r'')
                                  else None
                              | None => None
                              end
                          | None => None
                          end
                        else None in
                      match pair with
                      | Some (cp, r'') => scanstring fuel' start (cp :: acc) r''
                      | None => scanstring fuel' start (u :: acc) r
                      end
                  end
                else
                  match backslash e with
                  | Some x => scanstring fuel' start (x :: acc) s''
                  | None => Raise (ScanError "Invalid \escape" (length s))
                  end
            end
          else if c <? 32 then Raise (ScanError "Invalid control character at" (length s))
          else scanstring fuel' start (c :: acc) s'
      end
  end.

(** [d[k] = v] on the items of a dict. *)
Fixpoint dict_set (k : str) (v : value) (d : list (str * value)) : list (str * value) :=
  match d with
  | [] => [(k, v)]
  | (k', v') :: d' => if str_eqb k' k then (k, v) :: d' else (k', v') :: dict_set k v d'
  end.

(** [dict(pairs)]. *)
Definition dict_of (pairs : list (str * value)) : list (str * value) :=
  fold_left (fun d kv => dict_set kv.1 kv.2 d) pairs [].

(** scan_once, JSONArray and JSONObject.  [array_items] and [object_items]
    are the loops of the latter two, entered at a value and after the
    opening quote of a key; [acc] holds what was read, last first. *)
Fixpoint scan_once (fuel : nat) (s : str) : result scan_error (value * str) :=
  match fuel with
  | O => Raise (expecting_value s)
  | S fuel' =>
      match s with
      | [] => Raise (expecting_value s)
      | c :: s' =>
          if c =? 34 then
            r <- scanstring (S (length s')) (length s) [] s';;
            Ok (VStr r.1, r.2)
          else if c =? 123 then
            match skip_ws s' with
            | [] => Raise (ScanError "Expecting property name enclosed in double quotes" 0)
            | c1 :: s1 =>
                if c1 =? 125 then Ok (VDict [], s1)
                else if c1 =? 34 then object_items fuel' (S (length s1)) [] s1
                else Raise (ScanError "Expecting property name enclosed in double quotes"
                              (S (length s1)))
            end
          else if c =? 91 then
            match skip_ws s' with
            | c1 :: s1 =>
                if c1 =? 93 then Ok (VList [], s1) else array_items fuel' [] (c1 :: s1)
            | [] => array_items fuel' [] []
            end
          else
            match strip_prefix (py "null") s, strip_prefix (py "true") s,
                  strip_prefix (py "false") s with
            | Some r, _, _ => Ok (VNone, r)
            | _, Some r, _ => Ok (VBool true, r)
            | _, _, Some r => Ok (VBool false, r)
            | None, None, None =>
                match match_number s with
                | Some (VInt z, r) =>
                    if bool_decide (int_max_str_digits < int_digits s r)%nat
                    then Raise IntMaxStrDigits else Ok (VInt z, r)
                | Some vr => Ok vr
                | None =>
                    match strip_prefix (py "NaN") s, strip_prefix (py "Infinity") s,
                          strip_prefix (py "-Infinity") s with
                    | Some r, _, _ => Ok (VFloat (py "NaN"), r)
                    | _, Some r, _ => Ok (VFloat (py "Infinity"), r)
                    | _, _, Some r => Ok (VFloat (py "-Infinity"), r)
                    | None, None, None => Raise (expecting_value s)
                    end
                end
            end
      end
  end
with array_items (fuel : nat) (acc : list value) (s : str)
  : result scan_error (value * str) :=
  match fuel with
  | O => Raise (expecting_value s)
  | S fuel' =>
      vr <- scan_once fuel' s;;
      match skip_ws vr.2 with
      | [] => Raise (ScanError "Expecting ',' delimiter" 0)
      | c :: r =>
          if c =? 93 then Ok (VList (rev (vr.1 :: acc)), r)
          else if c =? 44 then array_items fuel' (vr.1 :: acc) (skip_ws r)
          else Raise (ScanError "Expecting ',' delimiter" (S (length r)))
      end
  end
with object_items (fuel : nat) (start : nat) (acc : list (str * value)) (s : str)
  : result scan_error (value * str) :=
  match fuel with
  | O => Raise (expecting_value s)
  | S fuel' =>
      kr <- scanstring (S (length s)) start [] s;;
      match skip_ws kr.2 with
      | [] => Raise (ScanError "Expecting ':' delimiter" 0)
      | c :: r =>
          if c =? 58 then
            vr <- scan_once fuel' (skip_ws r);;
            let acc' := (kr.1, vr.1) :: acc in
            match skip_ws vr.2 with
            | [] => Raise (ScanError "Expecting ',' delimiter" 0)
            | c1 :: r1 =>
                if c1 =? 125 then Ok (VDict (dict_of (rev acc')), r1)
                else if c1 =? 44 then
                  match skip_ws r1 with
                  | [] => Raise (ScanError
                                   "Expecting property name enclosed in double quotes" 0)
                  | c2 :: r2 =>
                      if c2 =? 34 then object_items fuel' (S (length r2)) acc' r2
                      else Raise (ScanError
                                    "Expecting property name enclosed in double quotes"
                                    (S (length r2)))
                  end
                else Raise (ScanError "Expecting ',' delimiter" (S (length r1)))
            end
          else Raise (ScanError "Expecting ':' delimiter" (S (length r)))
      end
  end.

(** The line and the column of position [p] of [doc], as JSONDecodeError
    computes them. *)
Definition decode_error (m : string) (doc : str) (p : nat) : JSONDecodeError :=
  let before := take p doc in
  let line := length (List.filter (fun c => c =? 10) before) in
  let col := (fix go (s : str) (n : nat) : nat :=
                match s with
                | [] => n
                | c :: s' => go s' (if c =? 10 then 0%nat else S n)
                end) before 0%nat in
  {| msg := py m; pos := p; lineno := S line; colno := S col |}.

(** [doc.startswith('\ufeff')]. *)
Definition starts_with_bom (doc : str) : bool :=
  match doc with
  | c :: _ => c =? 65279
  | [] => false
  end.

Definition loads (doc : str) : result exn value :=
  if starts_with_bom doc
  then Raise (DecodeError
                (decode_error "Unexpected UTF-8 BOM (decode using utf-8-sig)" doc 0))
  else
    match scan_once (2 * length doc + 2) (skip_ws doc) with
    | Raise (ScanError m n) => Raise (DecodeError (decode_error m doc (length doc - n)))
    | Raise IntMaxStrDigits => Raise ValueError
    | Ok (v, r) =>
        match skip_ws r with
        | [] => Ok v
        | r' => Raise (DecodeError
                         (decode_error "Extra data" doc (length doc - length r')))
        end
    end.

Definition hex_char (d : N) : char := if d <? 10 then 48 + d else 87 + d.

(** [\uXXXX] for a code unit. *)
Definition u_escape (u : N) : str :=
  [92; 117; hex_char (u / 4096 mod 16); hex_char (u / 256 mod 16);
   hex_char (u / 16 mod 16); hex_char (u mod 16)].

(** The replacement of one character by encode_basestring_ascii. *)
Definition encode_char (c : char) : str :=
  if c =? 34 then [92; 34]
  else if c =? 92 then [92; 92]
  else if c =? 10 then [92; 110]
  else if c =? 13 then [92; 114]
  else if c =? 9 then [92; 116]
  else if c =? 12 then [92; 102]
  else if c =? 8 then [92; 98]
  else if (32 <=? c) && (c <=? 126) then [c]
  else if c <? 65536 then u_escape c
  else u_escape (55296 + (c - 65536) / 1024) ++ u_escape (56320 + (c - 65536) mod 1024).

Definition encode_str (s : str) : str := [34] ++ flat_map encode_char s ++ [34].

(** [sep.join(parts)]. *)
Fixpoint join (sep : str) (parts : list str) : str :=
  match parts with
  | [] => []
  | [p] => p
  | p :: rest => p ++ sep ++ join sep rest
  end.

Fixpoint dumps (v : value) : str :=
  match v with
  | VNone => py "null"
  | VBool true => py "true"
  | VBool false => py "false"
  | VInt z => str_of_Z z
  | VFloat n => n
  | VStr s => encode_str s
  | VList l => [91] ++ join (py ", ") (map dumps l) ++ [93]
  | VDict d =>
      [123] ++ join (py ", ") (map (fun kv => encode_str kv.1 ++ py ": " ++ dumps kv.2) d)
            ++ [125]
  end.

(** [c.lower()] on ASCII and Latin-1. *)
Definition lower_char (c : char) : char :=
  if (65 <=? c) && (c <=? 90) then c + 32
  else if (192 <=? c) && (c <=? 222) && negb (c =? 215) then c + 32
  else c.

Definition lower (s : str) : str := map lower_char s.

(** [a == b].  A float is compared by its numeral, and NaN is equal to
    nothing; the equality of a float with an int is not modelled. *)
Fixpoint equal (a b : value) {struct a} : bool :=
  match a, b with
  | VNone, VNone => true
  | VBool x, VBool y => Bool.eqb x y
  | VBool x, VInt z | VInt z, VBool x => (z =? (if x then 1 else 0))%Z
  | VInt x, VInt y => (x =? y)%Z
  | VFloat x, VFloat y => str_eqb x y && negb (str_eqb x (py "NaN"))
  | VStr x, VStr y => str_eqb x y
  | VList x, VList y =>
      (fix go (x y : list value) : bool :=
         match x, y with
         | [], [] => true
         | u :: x', v :: y' => equal u v && go x' y'
         | _, _ => false
         end) x y
  | VDict x, VDict y =>
      bool_decide (length x = length y)
      && (fix go (x : list (str * value)) : bool :=
            match x with
            | [] => true
            | (k, u) :: x' =>
                match dict_get k y with
                | Some v => equal u v && go x'
                | None => false
                end
            end) x
  | _, _ => false
  end.

#[export] Instance python : Python :=
  {| json_loads := loads; json_dumps := dumps; str_lower := lower; py_eq := equal |}.

#[export] Instance snowflake : Snowflake :=
  {| PARSE_JSON := fun text => match loads text with Ok v => Some v | Raise _ => None end;
     variant_text := dumps;
     NAME_is_key := true;
     other_statement := fun _ _ => Raise CompilationError |}.

End Reference.

(** ** The rest of the page: the view tab and the update of a project *)

(** What an expander of the view tab holds.  The value an f-string
    formats is kept as the value. *)
Inductive widget : Type :=
| st_write (m : str)
| st_markdown_name (n : value)
    (* st.markdown(f"**{link['name']}**") *)
| st_markdown_links (url tutorial_url : value)
    (* st.markdown(f"[Acessar APP]({sub['url']})  |  [Tutorial]({sub['tutorial_url']})") *)
| st_divider.

(** [cols[idx % 2].expander(area["name"])] and what was drawn in it. *)
Record expander : Type := { column : nat; title : str; body : list widget }.

(** The loop over the sublinks of a project: what was drawn, and the
    exception that ended the loop, if any. *)
Fixpoint draw_sublinks (subs : list value) : list widget * option exn :=
  match subs with
  | [] => ([], None)
  | sub :: rest =>
      match getitem sub (py "url") with
      | Raise e => ([], Some e)
      | Ok url =>
          match getitem sub (py "tutorial_url") with
          | Raise e => ([], Some e)
          | Ok tutorial_url =>
              let more := draw_sublinks rest in
              (st_markdown_links url tutorial_url :: st_divider :: more.1, more.2)
          end
      end
  end.

(** The loop over the links of an area.  [link['name']] is read first, so
    [link.get("sublinks", [])] is only reached on a dict. *)
Fixpoint draw_links (items : list value) : list widget * option exn :=
  match items with
  | [] => ([], None)
  | link :: rest =>
      match link with
      | VDict d =>
          match dict_get (py "name") d with
          | None => ([], Some (KeyError (py "name")))
          | Some n =>
              match py_iter (default (VList []) (dict_get (py "sublinks") d)) with
              | Raise e => ([st_markdown_name n], Some e)
              | Ok subs =>
                  let drawn := draw_sublinks subs in
                  match drawn.2 with
                  | Some e => (st_markdown_name n :: drawn.1, Some e)
                  | None =>
                      let more := draw_links rest in
                      (st_markdown_name n :: drawn.1 ++ more.1, more.2)
                  end
              end
          end
      | _ => ([], Some TypeError)
      end
  end.

(** The body of the expander of one area. *)
Definition draw_area (a : area) : list widget * option exn :=
  let empty_note :=
    if truthy (links a) then []
    else [st_write (py "Nenhum aplicativo disponível nesta área.")] in
  match py_iter (links a) with
  | Raise e => (empty_note, Some e)
  | Ok items =>
      let drawn := draw_links items in (empty_note ++ drawn.1, drawn.2)
  end.

(** [for idx, area in enumerate(areas_to_show)], from index [idx] on: an
    exception ends the script, and the areas after it are not drawn. *)
Fixpoint draw_expanders (idx : nat) (shown : list area) : list expander * option exn :=
  match shown with
  | [] => ([], None)
  | a :: rest =>
      let drawn := draw_area a in
      let e := {| column := idx mod 2; title := name a; body := drawn.1 |} in
      match drawn.2 with
      | Some x => ([e], Some x)
      | None =>
          let more := draw_expanders (S idx) rest in (e :: more.1, more.2)
      end
  end.

(** What the update form of a project comes to: a notice instead of the
    form, or the click of its button. *)
Inductive upd_proj_outcome : Type :=
| NoProjects
    (* st.info("Essa área não possui projetos cadastrados.") *)
| ProjectNotFound
    (* st.error("Projeto não encontrado na lista.") *)
| Clicked (out : list ui) (s' : session).

Section Pages.
Context `{Python} `{Snowflake}.

(** The view tab for permission [p]: the warning, or the expanders. *)
Definition draw_tab_view (p : permission) (areas : list area)
  : view + list expander * option exn :=
  match tab_view p areas with
  | Warning m => inl (Warning m)
  | Expanders shown => inr (draw_expanders 0 shown)
  end.

(** [next((l for l in items if l["name"] == sel_proj), None)]. *)
Fixpoint find_project (sel_proj : value) (items : list value)
  : result exn (option value) :=
  match items with
  | [] => Ok None
  | l :: rest =>
      n <- getitem l (py "name");;
      if py_eq n sel_proj then Ok (Some l) else find_project sel_proj rest
  end.

(** [[new if l["name"] == sel_proj else l for l in items]]. *)
Fixpoint replace_project (sel_proj new : value) (items : list value)
  : result exn (list value) :=
  match items with
  | [] => Ok []
  | l :: rest =>
      n <- getitem l (py "name");;
      more <- replace_project sel_proj new rest;;
      Ok ((if py_eq n sel_proj then new else l) :: more)
  end.

(** The update form of a project and its button.  The form is drawn
    before the button is read: an exception there is not caught. *)
Definition btn_upd_proj (areas : list area) (sel_area : str) (sel_proj : value)
    (new_proj_name new_sublinks_json : str) (s : session)
  : result exn upd_proj_outcome :=
  area_obj <- find_area areas sel_area;;
  let area_links := links area_obj in
  if negb (truthy area_links) then Ok NoProjects
  else
    items <- py_iter area_links;;
    _ <- proj_names items;;
    proj_obj <- find_project sel_proj items;;
    match proj_obj with
    | None => Ok ProjectNotFound
    | Some _ =>
        Ok (match json_loads new_sublinks_json with
            | Raise (DecodeError _) =>
                Clicked [st_error (Text (py "🚫 JSON inválido nos sublinks. Verifique a formatação."))] s
            | Raise e =>
                Clicked [st_error (TextExc (py "🚫 Erro ao atualizar projeto: ") e)] s
            | Ok updated_sublinks =>
                let new := VDict [(py "name", VStr new_proj_name);
                                  (py "sublinks", updated_sublinks)] in
                match replace_project sel_proj new items with
                | Raise e =>
                    Clicked [st_error (TextExc (py "🚫 Erro ao atualizar projeto: ") e)] s
                | Ok updated_links =>
                    match session_sql
                            (UPDATE_LINKS (json_dumps (VList updated_links)) sel_area) s with
                    | (Ok _, s') => Clicked [st_rerun] s'
                    | (Raise e, s') =>
                        Clicked [st_error (TextExc (py "🚫 Erro ao atualizar projeto: ")
                                             (SnowparkSQLException e))] s'
                    end
                end
            end)
    end.

End Pages.

(** A sublink, a project and the links of an area in the format the forms
    ask for. *)
Definition is_sublink (v : value) : bool :=
  match v with
  | VDict d =>
      bool_decide (is_Some (dict_get (py "url") d))
      && bool_decide (is_Some (dict_get (py "tutorial_url") d))
  | _ => false
  end.

Definition is_project (v : value) : bool :=
  match v with
  | VDict d =>
      bool_decide (is_Some (dict_get (py "name") d))
      && match dict_get (py "sublinks") d with
         | None => true
         | Some (VList subs) => forallb is_sublink subs
         | Some _ => false
         end
  | _ => false
  end.

Definition is_catalog (v : value) : bool :=
  match v with
  | VList items => forallb is_project items
  | _ => false
  end.

(** The name of a project, and its sublinks. *)
Definition project_name (v : value) : option value :=
  match v with
  | VDict d => dict_get (py "name") d
  | _ => None
  end.

Definition project_sublinks (v : value) : list value :=
  match v with
  | VDict d =>
      match dict_get (py "sublinks") d with
      | Some (VList subs) => subs
      | _ => []
      end
  | _ => []
  end.

(** The headings among the widgets, and the dividers. *)
Definition heading (w : widget) : option value :=
  match w with
  | st_markdown_name n => Some n
  | _ => None
  end.

Definition is_divider (w : widget) : bool :=
  match w with
  | st_divider => true
  | _ => false
  end.

(** ** Specification vocabulary *)

(** The areas come by name, ascending. *)
Definition by_name_ascending (areas : list area) : Prop :=
  StronglySorted (fun a b => Is_true (str_leb (name a) (name b))) areas.

(** Row [r] is listed as area [a]: under its name, with the links the
    loop reads in it. *)
Definition listed `{Python} (r : row) (a : area) : Prop :=
  name a = NAME r /\ links_of_row (LINKS r) = Ok (links a).

(** The statements sent between session [s] and session [s']. *)
Definition sent_since (s s' : session) : list statement :=
  drop (length (sent s)) (sent s').

(** A text without quote and without backslash: spliced between two quotes
    it is a string constant, and denotes itself. *)
Definition plain (s : str) : Prop := Forall (fun c => c <> 39 /\ c <> 92) s.

(** A character the encoder writes as it is: printable ASCII other than
    the double quote and the backslash. *)
Definition literal_char (c : char) : bool :=
  (32 <=? c) && (c <=? 126) && negb (c =? 34) && negb (c =? 92).

Definition literal (s : str) : bool := forallb literal_char s.

(** A document whose encoding holds no backslash: no number, strings of
    literal characters, and dicts without a repeated key. *)
Fixpoint literal_value (v : value) : bool :=
  match v with
  | VNone | VBool _ => true
  | VInt _ | VFloat _ => false
  | VStr s => literal s
  | VList l => forallb literal_value l
  | VDict d =>
      forallb (fun kv => literal kv.1 && literal_value kv.2) d
      && bool_decide (NoDup (map fst d))
  end.

(** The number of values in a value, each item counted once more. *)
Fixpoint size (v : value) : nat :=
  match v with
  | VList l => S (list_sum (map (fun x => S (size x)) l))
  | VDict d => S (list_sum (map (fun kv => S (size kv.2)) d))
  | _ => 1
  end.

(** The reference scanner reads [v] back from its encoding, whatever
    follows it, given fuel for the values it holds. *)
Definition reads_back (v : value) : Prop :=
  forall fuel rest,
    (size v <= fuel)%nat ->
    Reference.scan_once fuel (Reference.dumps v ++ rest) = Ok (v, rest).

(** ** Example data *)

Module Example.

Definition finance : row := {| NAME := py "Finance"; LINKS := VStr (py "[]") |}.

(** A row whose LINKS is a string that is not JSON. *)
Definition legacy : row := {| NAME := py "Arquivo"; LINKS := VStr (py "{links: none") |}.

Definition s0 : session := {| rows := [finance; legacy]; sent := [] |}.

(** A JSON text, written with the quote for the double quote. *)
Definition text (s : string) : str := str_replace 39 [34] (py s).

(** A project without sublinks. *)
Definition project (n : str) : value :=
  VDict [(py "name", VStr n); (py "sublinks", VList [])].

(** An area in which a project name occurs twice. *)
Definition budget : area :=
  {| name := py "Finance";
     links := VList [project (py "Budgeting"); project (py "Payroll");
                     project (py "Budgeting")] |}.

(** A table whose row Finance holds the JSON text of those links. *)
Definition s1 : session :=
  {| rows := [{| NAME := py "Finance"; LINKS := VStr (Reference.dumps (links budget)) |}];
     sent := [] |}.

(** Links whose project name holds double quotes, and links whose
    project name holds a backslash, as typed in the form. *)
Definition quoted : str := text "[{'name': 'App \'X\'', 'sublinks': []}]".
Definition backslashed : str := text "[{'name': 'C:\\temp', 'sublinks': []}]".

(** The name held by [quoted], and the name [backslashed] is stored
    with: a tab where the backslash and the t were. *)
Definition quoted_name : str := py "App " ++ [34] ++ py "X" ++ [34].
Definition tabbed_name : str := py "C:" ++ [9] ++ py "emp".

(** The links of the end-to-end scenario. *)
Definition sublinks : str :=
  text "[{'url': 'https://x/app', 'tutorial_url': 'https://x/doc'}]".

(** A text that is not JSON, an open bracket and an integer of 4301
    digits, and a row that holds it. *)
Definition long_integer : str := 91 :: repeat 49 4301%nat.

Definition unread : row := {| NAME := py "Arquivo"; LINKS := VStr long_integer |}.

(** An area whose name holds a backslash, with the projects of [budget],
    and an area whose name is what a constant reads in that name. *)
Definition temp : row :=
  {| NAME := py "C:\temp"; LINKS := VStr (Reference.dumps (links budget)) |}.

Definition tabbed : row := {| NAME := tabbed_name; LINKS := VStr (py "[]") |}.

Definition s2 : session := {| rows := [temp; tabbed]; sent := [] |}.
Definition s3 : session := {| rows := [tabbed]; sent := [] |}.
Definition s4 : session := {| rows := [temp]; sent := [] |}.

(** A row whose name holds a quote. *)
Definition dor : row := {| NAME := py "D'Or"; LINKS := VStr (py "[]") |}.

Definition s6 : session := {| rows := [dor]; sent := [] |}.

(** Finance with two projects, one of a name that holds double quotes. *)
Definition s5 : session :=
  {| rows := [{| NAME := py "Finance";
                 LINKS := VStr (Reference.dumps
                                  (VList [project (py "Budgeting");
                                          project quoted_name])) |}];
     sent := [] |}.

End Example.

(** * Properties *)

(** ** The order of names *)

Lemma str_leb_refl (a : str) : str_leb a a = true.
Proof.
  induction a as [|x a IH]; simpl; [reflexivity|].
  rewrite N.ltb_irrefl, N.eqb_refl. exact IH.
Qed.

Lemma str_leb_total (a b : str) : str_leb a b = true \/ str_leb b a = true.
Proof.
  revert b. induction a as [|x a IH]; intros [|y b]; simpl; auto.
  destruct (N.ltb_spec x y) as [Hxy|Hxy]; [auto|].
  destruct (N.ltb_spec y x) as [Hyx|Hyx]; [auto|].
  assert (x = y) as -> by lia.
  rewrite N.eqb_refl. apply IH.
Qed.

Lemma str_leb_trans (a b c : str) :
  str_leb a b = true -> str_leb b c = true -> str_leb a c = true.
Proof.
  revert b c. induction a as [|x a IH]; intros [|y b] [|z c]; simpl; try congruence.
  destruct (N.ltb_spec x y) as [Hxy|Hxy].
  - intros _. destruct (N.ltb_spec y z) as [Hyz|Hyz].
    + intros _. destruct (N.ltb_spec x z); [reflexivity|lia].
    + destruct (N.eqb_spec y z) as [->|]; [|discriminate].
      intros _. destruct (N.ltb_spec x z); [reflexivity|lia].
  - destruct (N.eqb_spec x y) as [->|]; [|discriminate].
    intros Hab. destruct (N.ltb_spec y z) as [Hyz|Hyz]; [reflexivity|].
    destruct (N.eqb_spec y z) as [->|]; [|discriminate].
    apply IH, Hab.
Qed.

Lemma str_leb_antisym (a b : str) :
  str_leb a b = true -> str_leb b a = true -> a = b.
Proof.
  revert b. induction a as [|x a IH]; intros [|y b]; simpl; try congruence.
  destruct (N.ltb_spec x y) as [Hxy|Hxy].
  - destruct (N.ltb_spec y x); [lia|].
    destruct (N.eqb_spec y x); [lia|discriminate].
  - destruct (N.eqb_spec x y) as [->|]; [|discriminate].
    rewrite N.ltb_irrefl, N.eqb_refl. intros; f_equal; auto.
Qed.

Lemma name_le_total : Total name_le.
Proof.
  intros r1 r2. unfold name_le.
  destruct (str_leb_total (NAME r1) (NAME r2)) as [E|E]; rewrite E; simpl; auto.
Qed.

Lemma name_le_trans : Transitive name_le.
Proof.
  intros r1 r2 r3. unfold name_le. rewrite !Is_true_true. apply str_leb_trans.
Qed.

Lemma select_sorted (t : table) : StronglySorted name_le (select_order_by_NAME t).
Proof.
  apply (@StronglySorted_merge_sort _ name_le _ name_le_trans name_le_total).
Qed.

Lemma select_permutation (t : table) : select_order_by_NAME t ≡ₚ t.
Proof. apply merge_sort_Permutation. Qed.

(** ** Reading the catalog *)

(** Closes [x ∉ l] for a closed list [l] that does not hold [x]. *)
Ltac not_listed :=
  let Hin := fresh "Hin" in
  intros Hin; apply list_elem_of_In in Hin; simpl in Hin;
  repeat (destruct Hin as [Hin|Hin]; [discriminate Hin|]); destruct Hin.

Lemma load_rows_Ok `{Python} (df : list row) (areas : list area) :
  load_rows df = Ok areas <-> Forall2 listed df areas.
Proof.
  revert areas. induction df as [|r df IH]; intros areas; simpl.
  - split.
    + intros [= <-]. constructor.
    + intros Hf. inversion Hf. reflexivity.
  - destruct (links_of_row (LINKS r)) as [l|e] eqn:Hl; simpl.
    + destruct (load_rows df) as [more|e] eqn:Hmore; simpl.
      * split.
        -- intros [= <-]. constructor; [split; [reflexivity|exact Hl]|].
           apply IH. reflexivity.
        -- intros Hf. inversion Hf as [|r' a df' areas' [Hn Ha] Hrest]; subst.
           apply IH in Hrest. injection Hrest as <-.
           rewrite Hl in Ha. injection Ha as ->.
           destruct a as [n l']. simpl in Hn. rewrite Hn. reflexivity.
      * split; [discriminate|].
        intros Hf. inversion Hf as [|r' a df' areas' _ Hrest]; subst.
        apply IH in Hrest. discriminate.
    + split; [discriminate|].
      intros Hf. inversion Hf as [|r' a df' areas' [_ Ha] _]; subst. congruence.
Qed.

Lemma load_rows_Raise `{Python} (df : list row) (e : exn) :
  load_rows df = Raise e -> exists r, r ∈ df /\ links_of_row (LINKS r) = Raise e.
Proof.
  induction df as [|r df IH]; simpl; [discriminate|].
  destruct (links_of_row (LINKS r)) as [l|x] eqn:Hl; simpl.
  - destruct (load_rows df) as [more|x]; simpl; [discriminate|].
    intros [= ->]. destruct (IH eq_refl) as (r' & Hr' & He).
    exists r'. split; [apply list_elem_of_further, Hr'|exact He].
  - intros [= ->]. exists r. split; [apply list_elem_of_here|exact Hl].
Qed.

Lemma listed_elem `{Python} (df : list row) (areas : list area) :
  Forall2 listed df areas ->
  forall a, a ∈ areas <-> exists r, r ∈ df /\ listed r a.
Proof.
  induction 1 as [|r a0 df areas Hra Hrest IH]; intros a.
  - split; [intros Ha; inversion Ha|intros (r & Hr & _); inversion Hr].
  - rewrite elem_of_cons, IH. split.
    + intros [->|(r' & Hr' & Hl)].
      * exists r. split; [apply list_elem_of_here|exact Hra].
      * exists r'. split; [apply list_elem_of_further, Hr'|exact Hl].
    + intros (r' & Hr' & Hl). apply elem_of_cons in Hr' as [->|Hr'].
      * left. destruct Hra as [Hn Hk], Hl as [Hn' Hk'].
        destruct a as [n l], a0 as [n0 l0]. simpl in *. congruence.
      * right. exists r'. split; assumption.
Qed.

Lemma by_name_ascending_listed `{Python} (df : list row) (areas : list area) :
  Forall2 listed df areas -> StronglySorted name_le df -> by_name_ascending areas.
Proof.
  unfold by_name_ascending.
  induction 1 as [|r a df areas [Hn _] Hrest IH]; intros Hs; [constructor|].
  apply StronglySorted_inv in Hs as [Hs Hr]. constructor; [apply IH, Hs|].
  clear IH Hs. induction Hrest as [|r' a' df' areas' [Hn' _] _ IH]; [constructor|].
  apply Forall_cons in Hr as [Hr Hr']. constructor; [|apply IH, Hr'].
  rewrite Hn, Hn'. exact Hr.
Qed.

Lemma listed_names `{Python} (df : list row) (areas : list area) :
  Forall2 listed df areas -> map name areas = names df.
Proof.
  unfold names. induction 1 as [|r a df areas [Hn _] _ IH]; simpl; congruence.
Qed.

(** What [load_areas_from_sf] returns lists the rows of the table. *)
Lemma load_areas_elem `{Python} (t : table) (areas : list area) :
  load_areas_from_sf t = Ok areas ->
  forall a, a ∈ areas <-> exists r, r ∈ t /\ listed r a.
Proof.
  intros Hload a. apply load_rows_Ok in Hload.
  rewrite (listed_elem _ _ Hload). split; intros (r & Hr & Hl); exists r.
  - rewrite select_permutation in Hr. auto.
  - rewrite select_permutation. auto.
Qed.

Lemma load_areas_by_name `{Python} (t : table) (areas : list area) :
  load_areas_from_sf t = Ok areas -> by_name_ascending areas.
Proof.
  intros Hload. apply load_rows_Ok in Hload.
  apply (by_name_ascending_listed _ _ Hload), select_sorted.
Qed.

Lemma load_areas_names `{Python} (t : table) (areas : list area) :
  load_areas_from_sf t = Ok areas -> map name areas ≡ₚ names t.
Proof.
  intros Hload. apply load_rows_Ok in Hload.
  rewrite (listed_names _ _ Hload). unfold names.
  apply Permutation_map, select_permutation.
Qed.

Lemma load_rows_returns `{Python} (df : list row) :
  (exists areas, load_rows df = Ok areas)
  <-> Forall (fun r => exists l, links_of_row (LINKS r) = Ok l) df.
Proof.
  induction df as [|r df IH]; simpl.
  - split; [constructor|exists []; reflexivity].
  - rewrite Forall_cons, <- IH.
    destruct (links_of_row (LINKS r)) as [l|e]; simpl.
    + destruct (load_rows df) as [more|e]; simpl; split.
      * intros _. split; eexists; reflexivity.
      * intros _. eexists. reflexivity.
      * intros [? [=]].
      * intros [_ [? [=]]].
    + split; [intros [? [=]]|intros [[? [=]] _]].
Qed.

(** It returns when the links of every row are read, and only then. *)
Lemma load_areas_returns `{Python} (t : table) :
  (exists areas, load_areas_from_sf t = Ok areas)
  <-> Forall (fun r => exists l, links_of_row (LINKS r) = Ok l) t.
Proof.
  unfold load_areas_from_sf. rewrite load_rows_returns.
  rewrite select_permutation. reflexivity.
Qed.

Lemma load_areas_raises `{Python} (t : table) (e : exn) :
  load_areas_from_sf t = Raise e ->
  exists r, r ∈ t /\ links_of_row (LINKS r) = Raise e.
Proof.
  intros Hload. apply load_rows_Raise in Hload as (r & Hr & He).
  exists r. split; [|exact He]. rewrite select_permutation in Hr. exact Hr.
Qed.

(** C4. Whatever the table holds and in whatever order its rows were
    inserted, the areas [load_areas_from_sf] returns are sorted by name,
    ascending; they are the rows of the table, one area for each.  It
    returns them unless the links of a row raise an exception that the
    loop does not catch. *)
Theorem list_areas_sorted `{Python} (t : table) :
  match load_areas_from_sf t with
  | Ok areas => by_name_ascending areas /\ map name areas ≡ₚ names t
  | Raise e => exists r, r ∈ t /\ links_of_row (LINKS r) = Raise e
  end.
Proof.
  destruct (load_areas_from_sf t) as [areas|e] eqn:Hload.
  - split; [apply (load_areas_by_name t), Hload|apply load_areas_names, Hload].
  - apply load_areas_raises, Hload.
Qed.

(** Two tables with the same rows, inserted in different orders, list the
    same names in the same order. *)
Lemma list_areas_order_independent `{Python} (t t' : table) (areas areas' : list area) :
  t ≡ₚ t' ->
  load_areas_from_sf t = Ok areas ->
  load_areas_from_sf t' = Ok areas' ->
  map name areas = map name areas'.
Proof.
  intros Hp Hload Hload'.
  assert (Hs : forall u l, load_areas_from_sf u = Ok l ->
                 StronglySorted (fun a b => Is_true (str_leb a b)) (map name l)).
  { intros u l Hu. apply load_areas_by_name in Hu. unfold by_name_ascending in Hu.
    induction Hu as [|a l Hl IH Ha]; simpl; constructor; [exact IH|].
    rewrite Forall_forall in Ha. apply Forall_forall. intros x Hx.
    apply list_elem_of_In, in_map_iff in Hx as (b & <- & Hb).
    apply Ha, list_elem_of_In, Hb. }
  assert (Ha : AntiSymm (=) (fun a b : str => Is_true (str_leb a b))).
  { intros a b Hab Hba. apply Is_true_true in Hab, Hba.
    apply str_leb_antisym; assumption. }
  apply (@StronglySorted_unique _ _ Ha).
  - apply (Hs t), Hload.
  - apply (Hs t'), Hload'.
  - rewrite (load_areas_names _ _ Hload), (load_areas_names _ _ Hload').
    unfold names. apply Permutation_map, Hp.
Qed.

(** C3, as amended.  A row whose LINKS is a string that [json.loads]
    rejects with JSONDecodeError is read as the empty list, and it is
    listed so whenever the loader returns; such a row never makes the
    loader raise: when it raises, the exception comes from another row,
    and it returns when [json.loads] raises nothing but JSONDecodeError on
    the strings of the table. *)
Theorem list_areas_fail_soft `{Python} (t : table) (r : row) (text : str)
    (e : JSONDecodeError) :
  r ∈ t ->
  LINKS r = VStr text ->
  json_loads text = Raise (DecodeError e) ->
  links_of_row (LINKS r) = Ok (VList [])
  /\ (forall areas, load_areas_from_sf t = Ok areas ->
        {| name := NAME r; links := VList [] |} ∈ areas
        /\ length areas = length t)
  /\ (forall x, load_areas_from_sf t = Raise x ->
        exists r', r' ∈ t /\ r' <> r /\ links_of_row (LINKS r') = Raise x)
  /\ ((forall r' text', r' ∈ t -> LINKS r' = VStr text' ->
         (exists v, json_loads text' = Ok v)
         \/ (exists e', json_loads text' = Raise (DecodeError e'))) ->
      exists areas, load_areas_from_sf t = Ok areas).
Proof.
  intros Hr Hlinks Hbad.
  assert (Hrow : links_of_row (LINKS r) = Ok (VList [])).
  { unfold links_of_row. rewrite Hlinks, Hbad. reflexivity. }
  split; [exact Hrow|]. split; [|split].
  - intros areas Hload. split.
    + apply (load_areas_elem t areas Hload). exists r. split; [exact Hr|].
      split; [reflexivity|exact Hrow].
    + apply load_areas_names in Hload. apply Permutation_length in Hload.
      unfold names in Hload. rewrite !length_map in Hload. exact Hload.
  - intros x Hload. apply load_areas_raises in Hload as (r' & Hr' & Hx).
    exists r'. split; [exact Hr'|]. split; [|exact Hx]. intros ->. congruence.
  - intros Hothers. apply load_areas_returns, Forall_forall. intros r' Hr'.
    unfold links_of_row. destruct (LINKS r') as [ | | | |text'| | ] eqn:Hl; eauto.
    destruct (Hothers r' text' Hr' Hl) as [[v ->]|[e' ->]]; eauto.
Qed.

Lemma list_areas_fail_soft_witness :
  @links_of_row Reference.python (LINKS Example.legacy) = Ok (VList [])
  /\ (forall areas, @load_areas_from_sf Reference.python (rows Example.s0) = Ok areas ->
        {| name := py "Arquivo"; links := VList [] |} ∈ areas
        /\ length areas = 2%nat)
  /\ (forall x, @load_areas_from_sf Reference.python (rows Example.s0) = Raise x ->
        exists r', r' ∈ rows Example.s0 /\ r' <> Example.legacy
                   /\ @links_of_row Reference.python (LINKS r') = Raise x)
  /\ ((forall r' text', r' ∈ rows Example.s0 -> LINKS r' = VStr text' ->
         (exists v, Reference.loads text' = Ok v)
         \/ (exists e', Reference.loads text' = Raise (DecodeError e'))) ->
      exists areas, @load_areas_from_sf Reference.python (rows Example.s0) = Ok areas).
Proof.
  eapply (@list_areas_fail_soft Reference.python (rows Example.s0) Example.legacy).
  - apply list_elem_of_In. simpl. right. left. reflexivity.
  - reflexivity.
  - vm_compute. reflexivity.
Defined.

(** C3, where the statement of the specification fails.
    The string of the row Arquivo is not
    JSON, an open bracket and an integer of 4301 digits: [json.loads]
    raises ValueError on it, the loop does not catch it, and the loader
    raises instead of listing the area with no links. *)
Lemma list_areas_raises_on_long_integer :
  Reference.loads Example.long_integer = Raise ValueError
  /\ @load_areas_from_sf Reference.python [Example.finance; Example.unread]
     = Raise ValueError.
Proof. vm_compute. split; reflexivity. Qed.

(** ** String constants *)

Lemma string_constant_plain (fuel : nat) (s : str) :
  (length s < fuel)%nat -> plain s -> string_constant fuel s = Some s.
Proof.
  revert s. induction fuel as [|fuel IH]; intros s Hlen Hs; [lia|].
  destruct Hs as [|c s [Hq Hb] Hs]; simpl; [reflexivity|].
  destruct (N.eqb_spec c 39); [contradiction|].
  destruct (N.eqb_spec c 92); [contradiction|].
  rewrite IH; [reflexivity| simpl in Hlen; lia | exact Hs].
Qed.

Lemma constant_plain (s : str) : plain s -> constant s = Some s.
Proof. intros Hs. apply string_constant_plain; [lia|exact Hs]. Qed.

(** ** Validation of the links on the way in *)

(** C2, as amended.  [btn_add_area] sends its INSERT only for a text that
    [json.loads] decodes to a list.  A text that [json.loads] rejects with
    JSONDecodeError is answered with the message that carries the decoder's
    message, line and column, and a decoded value that is not a list with
    the message asking for a list; in both cases the script stops, no
    statement is sent and the table is as it was. *)
Theorem create_area_validates `{Python} `{Snowflake}
    (new_area text : str) (s : session) :
  (forall e, json_loads text = Raise (DecodeError e) ->
     btn_add_area new_area text s =
       ([st_error (Text (py "JSON inválido: " ++ msg e
                         ++ py " (linha " ++ str_of_nat (lineno e)
                         ++ py ", coluna " ++ str_of_nat (colno e) ++ py ")"));
         st_stop], s))
  /\ (forall v, json_loads text = Ok v -> isinstance_list v = false ->
     btn_add_area new_area text s =
       ([st_error (Text (py "O JSON deve ser uma **lista** de objetos.")); st_stop], s))
  /\ ((btn_add_area new_area text s).2 <> s ->
     exists items,
       json_loads text = Ok (VList items)
       /\ sent (btn_add_area new_area text s).2
          = sent s ++ [INSERT_AREA new_area (escape_quotes (json_dumps (VList items)))]).
Proof.
  unfold btn_add_area. split; [|split].
  - intros e ->. reflexivity.
  - intros v -> ->. reflexivity.
  - destruct (json_loads text) as [v|e]; simpl; [|destruct e; simpl; congruence].
    destruct v; simpl; try congruence.
    intros _. exists items. split; [reflexivity|].
    unfold session_sql. destruct (execute _ _); reflexivity.
Qed.

Lemma create_area_validates_witness :
  @btn_add_area Reference.python Reference.snowflake (py "Vendas") (py "[1,") Example.s0
  = ([st_error (Text (py "JSON inválido: Expecting value (linha 1, coluna 4)")); st_stop],
     Example.s0)
  /\ @btn_add_area Reference.python Reference.snowflake (py "Vendas") (py "{}") Example.s0
    = ([st_error (Text (py "O JSON deve ser uma **lista** de objetos.")); st_stop],
       Example.s0)
  /\ exists items, Reference.loads (py "[]") = Ok (VList items).
Proof.
  split; [|split].
  - destruct (@create_area_validates Reference.python Reference.snowflake
                (py "Vendas") (py "[1,") Example.s0) as [Hbad _].
    rewrite (Hbad (Reference.decode_error "Expecting value" (py "[1,") 3)).
    + vm_compute. reflexivity.
    + vm_compute. reflexivity.
  - destruct (@create_area_validates Reference.python Reference.snowflake
                (py "Vendas") (py "{}") Example.s0) as (_ & Hshape & _).
    apply (Hshape (VDict [])).
    + vm_compute. reflexivity.
    + reflexivity.
  - destruct (@create_area_validates Reference.python Reference.snowflake
                (py "Vendas") (py "[]") Example.s0) as (_ & _ & Hsent).
    destruct Hsent as (items & Hitems & _).
    + vm_compute. discriminate.
    + exists items. exact Hitems.
Defined.

(** C2, where the statement of the specification fails.
    The text is not JSON, an open bracket
    and an integer of 4301 digits: [json.loads] raises ValueError, which
    the [except] of the parse does not name.  No message is shown and the
    run ends on the exception; nothing is written. *)
Lemma create_area_long_integer :
  Reference.loads Example.long_integer = Raise ValueError
  /\ @btn_add_area Reference.python Reference.snowflake
       (py "Vendas") Example.long_integer Example.s0
     = ([uncaught ValueError], Example.s0).
Proof. vm_compute. split; reflexivity. Qed.

(** ** Statements that match no row *)


Lemma delete_no_match (o : str) (t : table) :
  o ∉ names t -> filter (fun r => NAME r <> o) t = t.
Proof.
  unfold names. induction t as [|r t IH]; simpl; [reflexivity|].
  intros Hno. apply not_elem_of_cons in Hno as [Hr Ht].
  rewrite filter_cons_True by congruence. f_equal. apply IH, Ht.
Qed.




(** C8, as amended.  For a name without quote and backslash,
    [btn_del_area] shows the success message whether or not a row matches.
    The rows left are those of another name, in the order they had; a name
    no row carries leaves the table as it was, and where names are unique a
    name that a row carries takes exactly one row away. *)
Theorem delete_area_exact `{Snowflake} (sel : str) (s : session) :
  plain sel ->
  let after := btn_del_area sel s in
  after.1 = [st_success (py "Área deletada com sucesso!"); st_rerun]
  /\ (forall r, r ∈ rows after.2 <-> r ∈ rows s /\ NAME r <> sel)
  /\ rows after.2 `sublist_of` rows s
  /\ (sel ∉ names (rows s) -> rows after.2 = rows s)
  /\ (sel ∈ names (rows s) -> NoDup (names (rows s)) ->
      S (length (rows after.2)) = length (rows s)).
Proof.
  intros Hsel. unfold btn_del_area, session_sql, execute.
  rewrite (constant_plain _ Hsel). simpl.
  split; [reflexivity|]. split; [|split; [|split]].
  - intros r. rewrite list_elem_of_filter. tauto.
  - apply sublist_filter.
  - apply delete_no_match.
  - unfold names. generalize (rows s) as t.
    induction t as [|r t IH]; simpl; intros Hin Hnd.
    + apply elem_of_nil in Hin as [].
    + apply NoDup_cons in Hnd as [Hr Hnd].
      destruct (decide (NAME r = sel)) as [E|E].
      * rewrite filter_cons_False by tauto. f_equal.
        rewrite delete_no_match; [reflexivity|]. unfold names. congruence.
      * rewrite filter_cons_True by exact E. simpl. f_equal. apply IH; [|exact Hnd].
        apply elem_of_cons in Hin as [Hin|Hin]; [congruence|exact Hin].
Qed.

Lemma delete_area_exact_witness :
  rows (@btn_del_area Reference.snowflake (py "Compras") Example.s0).2 = rows Example.s0
  /\ S (length (rows (@btn_del_area Reference.snowflake (py "Finance") Example.s0).2))
     = length (rows Example.s0).
Proof.
  split.
  - assert (Hc : plain (py "Compras")) by (vm_compute; repeat constructor; discriminate).
    destruct (@delete_area_exact Reference.snowflake _ Example.s0 Hc)
      as (_ & _ & _ & Hno & _).
    apply Hno. vm_compute. not_listed.
  - assert (Hc : plain (py "Finance")) by (vm_compute; repeat constructor; discriminate).
    destruct (@delete_area_exact Reference.snowflake _ Example.s0 Hc)
      as (_ & _ & _ & _ & Hyes).
    apply Hyes.
    + vm_compute. apply list_elem_of_In. left. reflexivity.
    + vm_compute. apply NoDup_cons. split.
      * not_listed.
      * apply NoDup_cons. split; [apply not_elem_of_nil|apply NoDup_nil_2].
Defined.

(** C8, where the statement of the specification fails.
    The name is spliced as it is; in a constant a backslash and a t are a
    tab, and two quotes are one.  With rows named [C:\temp] and C:, tab,
    emp, deleting [C:\temp] shows success, removes the row of the other
    name and keeps the row of that exact name; where no row is named
    [C:\temp], deleting it removes the row with the tab; and deleting
    [D''Or], which no row is named, removes the row [D'Or]. *)
Lemma delete_area_backslash :
  let del := @btn_del_area Reference.snowflake in
  NAME Example.temp = py "C:\temp"
  /\ NAME Example.tabbed <> py "C:\temp"
  /\ del (py "C:\temp") Example.s2
     = ([st_success (py "Área deletada com sucesso!"); st_rerun],
        {| rows := [Example.temp]; sent := [DELETE_AREA (py "C:\temp")] |})
  /\ (py "C:\temp" ∉ names (rows Example.s3))
  /\ length (rows Example.s3) = 1%nat
  /\ rows (del (py "C:\temp") Example.s3).2 = []
  /\ (py "D''Or" ∉ names (rows Example.s6))
  /\ length (rows Example.s6) = 1%nat
  /\ rows (del (py "D''Or") Example.s6).2 = [].
Proof.
  vm_compute. repeat split; [intros Hd; discriminate Hd|not_listed|not_listed].
Qed.

(** ** Deleting a project *)


(** The rows after an UPDATE of the links of the rows named [o]. *)
Lemma session_sql_update_links `{Snowflake} (doc sel j o : str) (v : value) (s : session) :
  constant doc = Some j ->
  constant sel = Some o ->
  PARSE_JSON j = Some v ->
  session_sql (UPDATE_LINKS doc sel) s
  = (Ok tt,
     {| rows := map (fun r => if str_eqb (NAME r) o
                              then {| NAME := NAME r; LINKS := stored v |} else r) (rows s);
        sent := sent s ++ [UPDATE_LINKS doc sel] |}).
Proof. intros Hj Ho Hv. unfold session_sql, execute. rewrite Hj, Ho, Hv. reflexivity. Qed.




(** Budgeting occurs twice in Finance; one click removes both, and the
    reload shows Payroll alone. *)
Lemma scenario_delete_duplicates :
  match @btn_del_proj Reference.python Reference.snowflake [Example.budget]
          (py "Finance") (VStr (py "Budgeting")) Example.s1 with
  | Ok after =>
      after.1 = [st_rerun]
      /\ @load_areas_from_sf Reference.python (rows after.2)
         = Ok [{| name := py "Finance"; links := VList [Example.project (py "Payroll")] |}]
  | Raise _ => False
  end.
Proof. vm_compute. split; reflexivity. Qed.

(** ** Permissions *)

Lemma areas_to_show_none (areas : list area) : areas_to_show (Only []) areas = [].
Proof.
  unfold areas_to_show. induction areas as [|a areas IH]; [reflexivity|].
  rewrite filter_cons_False; [exact IH|]. apply not_elem_of_nil.
Qed.

(** C10. The lookup reads the username and the keys of the mapping in lower
    case: two usernames with the same lower case get the same permission,
    and a username whose lower case is that of a key gets the value of that
    key.  A username whose lower case is no key gets the empty list: no
    area is shown, and the only tab is the first one. *)
Theorem permission_lookup `{Python} (username : str) (areas : list area) :
  (forall other, str_lower other = str_lower username ->
     permitted other = permitted username)
  /\ (str_lower username = str_lower (py "test_user") ->
     permitted username
     = Only [py "Cadastramento e Governança BP"; py "Coleta Tradicional"])
  /\ (str_lower username = str_lower (py "spdo") ->
     str_lower (py "spdo") <> str_lower (py "test_user") ->
     permitted username = All)
  /\ (str_lower username ∉ map (fun kv => str_lower kv.1) raw_permissions ->
     permitted username = Only []
     /\ areas_to_show (permitted username) areas = []
     /\ tab_view (permitted username) areas
        = Warning (py "Você não possui acesso a nenhuma área.")
     /\ tab_names (permitted username) = [py "Aplicações"]
     /\ tab_manage (permitted username) = None).
Proof.
  unfold permitted, user_permissions, raw_permissions. simpl.
  split; [|split; [|split]].
  - intros other ->. reflexivity.
  - intros ->. rewrite lookup_insert_eq. reflexivity.
  - intros -> Hne. rewrite lookup_insert_ne by congruence.
    rewrite lookup_insert_eq. reflexivity.
  - intros Hno. apply not_elem_of_cons in Hno as [Hspdo Hno].
    apply not_elem_of_cons in Hno as [Htest _].
    rewrite lookup_insert_ne by congruence.
    rewrite lookup_insert_ne by congruence.
    rewrite lookup_empty. simpl.
    unfold tab_view. rewrite areas_to_show_none.
    split; [reflexivity|]. split; [apply areas_to_show_none|]. repeat split.
Qed.

Lemma permission_lookup_witness :
  @permitted Reference.python (py "Spdo") = @permitted Reference.python (py "SPDO")
  /\ @permitted Reference.python (py "Test_User")
     = Only [py "Cadastramento e Governança BP"; py "Coleta Tradicional"]
  /\ @permitted Reference.python (py "SPDO") = All
  /\ @permitted Reference.python (py "Visitante") = Only []
  /\ @tab_manage (@permitted Reference.python (py "Visitante")) = None.
Proof.
  split; [|split; [|split; [|split]]].
  - destruct (@permission_lookup Reference.python (py "SPDO") []) as (Hsame & _).
    apply Hsame. vm_compute. reflexivity.
  - destruct (@permission_lookup Reference.python (py "Test_User") []) as (_ & Htest & _).
    apply Htest. vm_compute. reflexivity.
  - destruct (@permission_lookup Reference.python (py "SPDO") []) as (_ & _ & Hspdo & _).
    apply Hspdo; vm_compute; [reflexivity|discriminate].
  - destruct (@permission_lookup Reference.python (py "Visitante") []) as (_ & _ & _ & Hno).
    apply Hno. vm_compute. not_listed.
  - destruct (@permission_lookup Reference.python (py "Visitante") []) as (_ & _ & _ & Hno).
    apply Hno. vm_compute. not_listed.
Defined.

(** ** The shape of the links on the update path *)

(** [btn_upd_area] sends its UPDATE for whatever value the text decodes to:
    it has no check of the shape. *)
Lemma replace_area_sends_any_value `{Python} `{Snowflake}
    (sel new_area_name text : str) (s : session) (v : value) :
  json_loads text = Ok v ->
  sent (btn_upd_area sel new_area_name text s).2
  = sent s ++ [UPDATE_AREA new_area_name (escape_quotes (json_dumps v)) sel].
Proof.
  intros Hv. unfold btn_upd_area, session_sql. rewrite Hv.
  destruct (execute _ _); reflexivity.
Qed.

(** C1 (the code departs from it). The text of an empty object is valid
    JSON and not a list.  [btn_add_area] refuses it and writes nothing;
    [btn_upd_area] reports success and stores the object as the links of
    the area, and the next reload lists it. *)
Theorem replace_area_accepts_object :
  let after := @btn_upd_area Reference.python Reference.snowflake
                 (py "Finance") (py "Finance") (py "{}") Example.s0 in
  Reference.loads (py "{}") = Ok (VDict [])
  /\ @btn_add_area Reference.python Reference.snowflake (py "Vendas") (py "{}") Example.s0
     = ([st_error (Text (py "O JSON deve ser uma **lista** de objetos.")); st_stop],
        Example.s0)
  /\ after
     = ([st_success (py "Área atualizada com sucesso!"); st_rerun],
        {| rows := [{| NAME := py "Finance"; LINKS := VStr (py "{}") |}; Example.legacy];
           sent := [UPDATE_AREA (py "Finance") (py "{}") (py "Finance")] |})
  /\ @load_areas_from_sf Reference.python (rows after.2)
     = Ok [{| name := py "Arquivo"; links := VList [] |};
           {| name := py "Finance"; links := VDict [] |}].
Proof. vm_compute. repeat split. Qed.

(** ** Documents with quotes and backslashes *)

(** C5 (the code departs from it). [escape_quotes] guards the quote and
    leaves the backslashes of the encoder as they are, and in a string
    constant a backslash starts an escape sequence.  Links whose project
    name holds double quotes reach PARSE_JSON without their backslashes: the
    INSERT fails and the area is not listed.  Links whose project name holds
    a backslash before a t are stored with a tab: success is reported and
    the area is listed with other links than those supplied. *)
Theorem create_area_alters_escapes :
  let add := @btn_add_area Reference.python Reference.snowflake (py "Vendas") in
  let list_areas s := @load_areas_from_sf Reference.python (rows s) in
  Reference.loads Example.quoted = Ok (VList [Example.project Example.quoted_name])
  /\ add Example.quoted Example.s0
     = ([st_error (TextExc (py "Erro ao adicionar área: ")
                     (SnowparkSQLException InvalidJson))],
        {| rows := rows Example.s0;
           sent := [INSERT_AREA (py "Vendas")
                      (escape_quotes (Reference.dumps
                                        (VList [Example.project Example.quoted_name])))] |})
  /\ list_areas (add Example.quoted Example.s0).2
     = Ok [{| name := py "Arquivo"; links := VList [] |};
           {| name := py "Finance"; links := VList [] |}]
  /\ Reference.loads Example.backslashed = Ok (VList [Example.project (py "C:\temp")])
  /\ (add Example.backslashed Example.s0).1
     = [st_success (py "Área adicionada com sucesso!"); st_rerun]
  /\ list_areas (add Example.backslashed Example.s0).2
     = Ok [{| name := py "Arquivo"; links := VList [] |};
           {| name := py "Finance"; links := VList [] |};
           {| name := py "Vendas";
              links := VList [Example.project Example.tabbed_name] |}].
Proof. vm_compute. repeat split. Qed.

(** C6 (the code departs from it). The defect is the one of C5, on the
    update path.  Replacing the links of Finance by links whose project
    name holds double quotes fails at PARSE_JSON, and the area keeps its
    former links; replacing them by links whose project name holds a
    backslash before a t reports success and stores a tab.  In both cases
    the other row is as it was. *)
Theorem replace_area_alters_escapes :
  let upd := @btn_upd_area Reference.python Reference.snowflake
               (py "Finance") (py "Finance") in
  let list_areas s := @load_areas_from_sf Reference.python (rows s) in
  Reference.loads Example.quoted = Ok (VList [Example.project Example.quoted_name])
  /\ (upd Example.quoted Example.s0).1
     = [st_error (TextExc (py "Erro ao atualizar área: ")
                    (SnowparkSQLException InvalidJson))]
  /\ list_areas (upd Example.quoted Example.s0).2
     = Ok [{| name := py "Arquivo"; links := VList [] |};
           {| name := py "Finance"; links := VList [] |}]
  /\ Reference.loads Example.backslashed = Ok (VList [Example.project (py "C:\temp")])
  /\ (upd Example.backslashed Example.s0).1
     = [st_success (py "Área atualizada com sucesso!"); st_rerun]
  /\ list_areas (upd Example.backslashed Example.s0).2
     = Ok [{| name := py "Arquivo"; links := VList [] |};
           {| name := py "Finance";
              links := VList [Example.project Example.tabbed_name] |}]
  /\ Example.legacy ∈ rows (upd Example.quoted Example.s0).2
  /\ Example.legacy ∈ rows (upd Example.backslashed Example.s0).2.
Proof.
  vm_compute. repeat split; apply list_elem_of_In; simpl; auto.
Qed.

(** ** The rows after a write, and the next listing *)

Lemma update_frame (o : str) (f : row -> row) (t : table) (r : row) :
  r ∈ t -> NAME r <> o ->
  r ∈ map (fun r => if str_eqb (NAME r) o then f r else r) t.
Proof.
  intros Hr Hne. apply list_elem_of_In, in_map_iff. exists r.
  split; [|apply list_elem_of_In, Hr].
  unfold str_eqb. rewrite bool_decide_eq_false_2 by exact Hne. reflexivity.
Qed.

Lemma update_match (o : str) (f : row -> row) (t : table) (r : row) :
  r ∈ t -> NAME r = o ->
  f r ∈ map (fun r => if str_eqb (NAME r) o then f r else r) t.
Proof.
  intros Hr He. apply list_elem_of_In, in_map_iff. exists r.
  split; [|apply list_elem_of_In, Hr].
  unfold str_eqb. rewrite bool_decide_eq_true_2 by exact He. reflexivity.
Qed.

Lemma update_elem (o : str) (f : row -> row) (t : table) (r' : row) :
  r' ∈ map (fun r => if str_eqb (NAME r) o then f r else r) t ->
  (r' ∈ t /\ NAME r' <> o) \/ (exists r, r ∈ t /\ NAME r = o /\ r' = f r).
Proof.
  intros Hr'. apply list_elem_of_In, in_map_iff in Hr' as (r & Hf & Hr).
  apply list_elem_of_In in Hr. unfold str_eqb in Hf.
  destruct (bool_decide_reflect (NAME r = o)) as [He|Hne].
  - right. exists r. auto.
  - left. subst r'. auto.
Qed.

(** An UPDATE of the links alone is an UPDATE that sets the name to what
    it is. *)
Lemma update_links_rows (o : str) (c : value) (t : table) :
  map (fun r => if str_eqb (NAME r) o then {| NAME := NAME r; LINKS := c |} else r) t
  = map (fun r => if str_eqb (NAME r) o then {| NAME := o; LINKS := c |} else r) t.
Proof.
  apply map_ext. intros r. unfold str_eqb.
  destruct (bool_decide_reflect (NAME r = o)) as [->|]; reflexivity.
Qed.

(** The loader returns on a table whose rows it reads, with an area for
    each row. *)
Lemma load_areas_spec `{Python} (t : table) :
  Forall (fun r => exists l, links_of_row (LINKS r) = Ok l) t ->
  exists areas,
    load_areas_from_sf t = Ok areas
    /\ forall a, a ∈ areas <-> exists r, r ∈ t /\ listed r a.
Proof.
  intros Hread. apply load_areas_returns in Hread as [areas Hload].
  exists areas. split; [exact Hload|]. apply load_areas_elem, Hload.
Qed.

Lemma load_areas_readable `{Python} (t : table) (areas : list area) :
  load_areas_from_sf t = Ok areas ->
  Forall (fun r => exists l, links_of_row (LINKS r) = Ok l) t.
Proof. intros Hload. apply load_areas_returns. eauto. Qed.

(** The listing after a row was added at the end. *)
Lemma load_areas_insert `{Python} (t : table) (before : list area)
    (n : str) (c l : value) :
  load_areas_from_sf t = Ok before ->
  links_of_row c = Ok l ->
  exists after,
    load_areas_from_sf (t ++ [{| NAME := n; LINKS := c |}]) = Ok after
    /\ {| name := n; links := l |} ∈ after
    /\ (forall a, a ∈ before -> a ∈ after).
Proof.
  intros Hload Hc.
  destruct (load_areas_spec (t ++ [{| NAME := n; LINKS := c |}])) as (after & Hafter & Hin).
  { apply Forall_app. split; [apply (load_areas_readable t before Hload)|].
    apply Forall_singleton. eauto. }
  exists after. split; [exact Hafter|]. split.
  - apply Hin. exists {| NAME := n; LINKS := c |}.
    split; [apply elem_of_app; right; apply list_elem_of_here|split; [reflexivity|exact Hc]].
  - intros a Ha. apply (load_areas_elem t before Hload) in Ha as (r & Hr & Hl).
    apply Hin. exists r. split; [apply elem_of_app; left; exact Hr|exact Hl].
Qed.

(** The listing after the rows named [o] were rewritten. *)
Lemma load_areas_update `{Python} (t : table) (before : list area)
    (o new : str) (c l : value) :
  load_areas_from_sf t = Ok before ->
  links_of_row c = Ok l ->
  exists after,
    load_areas_from_sf
      (map (fun r => if str_eqb (NAME r) o then {| NAME := new; LINKS := c |} else r) t)
    = Ok after
    /\ (o ∈ names t -> {| name := new; links := l |} ∈ after)
    /\ (forall a, a ∈ before -> name a <> o -> a ∈ after)
    /\ (forall a, a ∈ after ->
          (a ∈ before /\ name a <> o) \/ a = {| name := new; links := l |}).
Proof.
  intros Hload Hc.
  pose proof (load_areas_readable t before Hload) as Hread.
  rewrite Forall_forall in Hread.
  destruct (load_areas_spec
              (map (fun r => if str_eqb (NAME r) o
                             then {| NAME := new; LINKS := c |} else r) t))
    as (after & Hafter & Hin).
  { apply Forall_forall. intros r' Hr'.
    apply update_elem in Hr' as [[Hr' _]|(r & _ & _ & ->)]; [apply Hread, Hr'|eauto]. }
  exists after. split; [exact Hafter|]. split; [|split].
  - intros Ho. unfold names in Ho.
    apply list_elem_of_In, in_map_iff in Ho as (r & Hr & Hrt).
    apply Hin. exists {| NAME := new; LINKS := c |}. split.
    + apply (update_match o (fun _ => {| NAME := new; LINKS := c |}) t r);
        [apply list_elem_of_In, Hrt|exact Hr].
    + split; [reflexivity|exact Hc].
  - intros a Ha Hne. apply (load_areas_elem t before Hload) in Ha as (r & Hr & Hl).
    apply Hin. exists r. split; [|exact Hl].
    apply update_frame; [exact Hr|]. destruct Hl as [Hn _]. congruence.
  - intros a Ha. apply Hin in Ha as (r' & Hr' & Hl).
    apply update_elem in Hr' as [[Hr' Hne]|(r & _ & _ & ->)].
    + left. split.
      * apply (load_areas_elem t before Hload). exists r'. auto.
      * destruct Hl as [Hn _]. congruence.
    + right. destruct Hl as [Hn Hk]. simpl in Hn, Hk.
      destruct a as [an al]. simpl in *. congruence.
Qed.

(** The listing after the rows named [o] were deleted. *)
Lemma load_areas_delete `{Python} (t : table) (before : list area) (o : str) :
  load_areas_from_sf t = Ok before ->
  exists after,
    load_areas_from_sf (filter (fun r => NAME r <> o) t) = Ok after
    /\ forall a, a ∈ after <-> a ∈ before /\ name a <> o.
Proof.
  intros Hload.
  pose proof (load_areas_readable t before Hload) as Hread.
  rewrite Forall_forall in Hread.
  destruct (load_areas_spec (filter (fun r => NAME r <> o) t)) as (after & Hafter & Hin).
  { apply Forall_forall. intros r Hr. apply list_elem_of_filter in Hr as [_ Hr].
    apply Hread, Hr. }
  exists after. split; [exact Hafter|]. intros a.
  rewrite Hin, (load_areas_elem t before Hload). split.
  - intros (r & Hr & Hl). apply list_elem_of_filter in Hr as [Hne Hr]. split.
    + exists r. auto.
    + destruct Hl as [Hn _]. congruence.
  - intros [(r & Hr & Hl) Hne]. exists r. split; [|exact Hl].
    apply list_elem_of_filter. split; [|exact Hr]. destruct Hl as [Hn _]. congruence.
Qed.

(** What a click that is answered with success leaves in the session. *)
Lemma btn_add_area_rows `{Python} `{Snowflake}
    (new_area text : str) (s : session) (items : list value) (n j : str) (v : value) :
  json_loads text = Ok (VList items) ->
  constant new_area = Some n ->
  constant (escape_quotes (json_dumps (VList items))) = Some j ->
  PARSE_JSON j = Some v ->
  violates_key (rows s ++ [{| NAME := n; LINKS := stored v |}]) = false ->
  btn_add_area new_area text s
  = ([st_success (py "Área adicionada com sucesso!"); st_rerun],
     {| rows := rows s ++ [{| NAME := n; LINKS := stored v |}];
        sent := sent s ++ [INSERT_AREA new_area
                             (escape_quotes (json_dumps (VList items)))] |}).
Proof.
  intros Htext Hn Hj Hv Hkey. unfold btn_add_area, session_sql, execute.
  rewrite Htext, Hn, Hj, Hv. simpl. rewrite Hkey. reflexivity.
Qed.

Lemma btn_upd_area_rows `{Python} `{Snowflake}
    (sel new_area_name text : str) (s : session) (parsed v : value) (old new j : str) :
  json_loads text = Ok parsed ->
  constant new_area_name = Some new ->
  constant (escape_quotes (json_dumps parsed)) = Some j ->
  constant sel = Some old ->
  PARSE_JSON j = Some v ->
  violates_key (map (fun r => if str_eqb (NAME r) old
                              then {| NAME := new; LINKS := stored v |} else r)
                  (rows s)) = false ->
  btn_upd_area sel new_area_name text s
  = ([st_success (py "Área atualizada com sucesso!"); st_rerun],
     {| rows := map (fun r => if str_eqb (NAME r) old
                              then {| NAME := new; LINKS := stored v |} else r) (rows s);
        sent := sent s ++ [UPDATE_AREA new_area_name
                             (escape_quotes (json_dumps parsed)) sel] |}).
Proof.
  intros Htext Hn Hj Ho Hv Hkey. unfold btn_upd_area, session_sql, execute.
  rewrite Htext, Hn, Hj, Ho, Hv. simpl. rewrite Hkey, andb_false_r. reflexivity.
Qed.

Lemma btn_del_area_rows `{Snowflake} (sel old : str) (s : session) :
  constant sel = Some old ->
  btn_del_area sel s
  = ([st_success (py "Área deletada com sucesso!"); st_rerun],
     {| rows := filter (fun r => NAME r <> old) (rows s);
        sent := sent s ++ [DELETE_AREA sel] |}).
Proof.
  intros Hold. unfold btn_del_area, session_sql, execute. rewrite Hold. reflexivity.
Qed.

(** ** The end-to-end scenario

    Finance is created with no links, the project Budgeting is added with
    one sublink from the reloaded areas, and the next reload shows Finance
    with exactly that project. *)
Lemma scenario_finance_budgeting :
  let s1 := (@btn_add_area Reference.python Reference.snowflake
               (py "Finance") (py "[]") {| rows := []; sent := [] |}).2 in
  let s2 := (@btn_add_proj Reference.python Reference.snowflake
               [{| name := py "Finance"; links := VList [] |}]
               (py "Finance") (py "Budgeting") Example.sublinks s1).2 in
  @load_areas_from_sf Reference.python (rows s1)
  = Ok [{| name := py "Finance"; links := VList [] |}]
  /\ @load_areas_from_sf Reference.python (rows s2)
     = Ok [{| name := py "Finance";
              links := VList [VDict [(py "name", VStr (py "Budgeting"));
                                     (py "sublinks",
                                      VList [VDict [(py "url", VStr (py "https://x/app"));
                                                    (py "tutorial_url",
                                                     VStr (py "https://x/doc"))]])]] |}].
Proof. vm_compute. split; reflexivity. Qed.

(** ** The reference decoder reads what the reference encoder writes

    For a literal value the encoding holds no escape sequence, the scanner
    reads it back, and the constant built by [escape_quotes] denotes it.
    The proof follows the scanner through the encoding of a value, by
    induction on the value. *)

Lemma literal_char_spec (c : char) :
  literal_char c = true <-> 32 <= c /\ c <= 126 /\ c <> 34 /\ c <> 92.
Proof.
  unfold literal_char.
  rewrite !andb_true_iff, !negb_true_iff, !N.leb_le, !N.eqb_neq. tauto.
Qed.

Lemma encode_char_literal (c : char) :
  literal_char c = true -> Reference.encode_char c = [c].
Proof.
  intros Hc. apply literal_char_spec in Hc as (Hlo & Hhi & Hq & Hb).
  unfold Reference.encode_char.
  repeat match goal with
         | |- context [?x =? ?k] => destruct (N.eqb_spec x k) as [?|_]; [lia|]
         end.
  destruct (N.leb_spec 32 c); [|lia]. destruct (N.leb_spec c 126); [|lia].
  reflexivity.
Qed.

Lemma encode_literal (s : str) :
  literal s = true -> flat_map Reference.encode_char s = s.
Proof.
  induction s as [|c s IH]; simpl; [reflexivity|].
  intros H. apply andb_true_iff in H as [Hc Hs].
  rewrite (encode_char_literal c Hc), IH by exact Hs. reflexivity.
Qed.

Lemma scanstring_literal (s : str) :
  literal s = true ->
  forall acc fuel start rest,
    (length s < fuel)%nat ->
    Reference.scanstring fuel start acc (s ++ 34 :: rest) = Ok (rev acc ++ s, rest).
Proof.
  induction s as [|c s IH]; intros Hs acc fuel start rest Hfuel;
    (destruct fuel as [|fuel]; [simpl in Hfuel; lia|]).
  - simpl. rewrite app_nil_r. reflexivity.
  - simpl in Hs. apply andb_true_iff in Hs as [Hc Hs].
    apply literal_char_spec in Hc as (Hlo & Hhi & Hq & Hb).
    simpl.
    destruct (N.eqb_spec c 34); [contradiction|].
    destruct (N.eqb_spec c 92); [contradiction|].
    destruct (N.ltb_spec c 32); [lia|].
    rewrite IH by (simpl in Hfuel; auto with lia).
    simpl. rewrite <- app_assoc. reflexivity.
Qed.

(** An induction principle that reaches the items of lists and dicts. *)
Lemma value_nested_ind (P : value -> Prop) :
  P VNone ->
  (forall b, P (VBool b)) ->
  (forall z, P (VInt z)) ->
  (forall n, P (VFloat n)) ->
  (forall s, P (VStr s)) ->
  (forall l, Forall P l -> P (VList l)) ->
  (forall d, Forall (fun kv => P kv.2) d -> P (VDict d)) ->
  forall v, P v.
Proof.
  intros HN HB HI HF HS HL HD.
  fix IH 1. intros [ | b | z | n | s | l | d ].
  - exact HN.
  - apply HB.
  - apply HI.
  - apply HF.
  - apply HS.
  - apply HL. induction l as [|x l IHl]; constructor; [apply IH|exact IHl].
  - apply HD. induction d as [|[k x] d IHd]; constructor; [apply IH|exact IHd].
Qed.

Lemma dumps_list (l : list value) :
  Reference.dumps (VList l)
  = 91 :: Reference.join [44; 32] (map Reference.dumps l) ++ [93].
Proof. reflexivity. Qed.

Lemma dumps_dict (d : list (str * value)) :
  Reference.dumps (VDict d)
  = 123 :: Reference.join [44; 32]
             (map (fun kv => Reference.encode_str kv.1 ++ [58; 32] ++ Reference.dumps kv.2) d)
          ++ [125].
Proof. reflexivity. Qed.

Lemma join_cons (sep p : str) (ps : list str) :
  Reference.join sep (p :: ps)
  = p ++ match ps with [] => [] | _ :: _ => sep ++ Reference.join sep ps end.
Proof. destruct ps; simpl; [rewrite app_nil_r|]; reflexivity. Qed.

(** The first character of an encoding opens a value. *)
Lemma dumps_head (v : value) :
  literal_value v = true ->
  exists c t, Reference.dumps v = c :: t
              /\ (c = 34 \/ c = 91 \/ c = 123 \/ c = 110 \/ c = 116 \/ c = 102).
Proof.
  destruct v as [ | [|] | z | n | s | l | d ]; intros Hv; try discriminate Hv.
  - exists 110, [117; 108; 108]. split; [reflexivity|tauto].
  - exists 116, [114; 117; 101]. split; [reflexivity|tauto].
  - exists 102, [97; 108; 115; 101]. split; [reflexivity|tauto].
  - eexists 34, _. split; [reflexivity|tauto].
  - eexists 91, _. split; [apply dumps_list|tauto].
  - eexists 123, _. split; [apply dumps_dict|tauto].
Qed.

Lemma skip_ws_dumps (v : value) (rest : str) :
  literal_value v = true ->
  Reference.skip_ws (Reference.dumps v ++ rest) = Reference.dumps v ++ rest.
Proof.
  intros Hv. destruct (dumps_head v Hv) as (c & t & -> & Hc).
  destruct Hc as [->|[->|[->|[->|[->| ->]]]]]; reflexivity.
Qed.

Lemma array_items_step (f : nat) (acc : list value) (s : str) :
  Reference.array_items (S f) acc s
  = bind (Reference.scan_once f s)
      (fun vr =>
         match Reference.skip_ws vr.2 with
         | [] => Raise (Reference.ScanError "Expecting ',' delimiter" 0)
         | c :: r =>
             if c =? 93 then Ok (VList (rev (vr.1 :: acc)), r)
             else if c =? 44 then Reference.array_items f (vr.1 :: acc) (Reference.skip_ws r)
             else Raise (Reference.ScanError "Expecting ',' delimiter" (S (length r)))
         end).
Proof. reflexivity. Qed.

Lemma array_items_dumps (l : list value) :
  Forall (fun x => literal_value x = true /\ reads_back x) l ->
  l <> [] ->
  forall acc fuel rest,
    (list_sum (map (fun x => S (size x)) l) <= fuel)%nat ->
    Reference.array_items fuel acc
      (Reference.join [44; 32] (map Reference.dumps l) ++ 93 :: rest)
    = Ok (VList (rev acc ++ l), rest).
Proof.
  induction 1 as [|x l [Hx Hback] Hl IH]; [congruence|]. intros _ acc fuel rest Hfuel.
  simpl in Hfuel. destruct fuel as [|f]; [lia|].
  rewrite array_items_step.
  change (map Reference.dumps (x :: l)) with (Reference.dumps x :: map Reference.dumps l).
  rewrite join_cons, <- app_assoc.
  rewrite Hback by lia. simpl bind.
  destruct l as [|y l].
  - reflexivity.
  - change (map Reference.dumps (y :: l))
      with (Reference.dumps y :: map Reference.dumps l) in *.
    cbv iota.
    change (Reference.skip_ws ((44 :: 32 :: ?s) ++ ?t)) with (44 :: 32 :: s ++ t).
    cbv beta iota.
    change (44 =? 93) with false. change (44 =? 44) with true. cbv iota.
    change (Reference.skip_ws (32 :: ?s)) with (Reference.skip_ws s).
    inversion Hl as [|? ? [Hy _] _]; subst.
    rewrite join_cons, <- app_assoc, skip_ws_dumps by exact Hy.
    rewrite app_assoc, <- join_cons.
    rewrite IH; [|discriminate|simpl in Hfuel |- *; lia].
    simpl. rewrite <- app_assoc. reflexivity.
Qed.

Lemma object_items_step (f start : nat) (acc : list (str * value)) (s : str) :
  Reference.object_items (S f) start acc s
  = bind (Reference.scanstring (S (length s)) start [] s)
      (fun kr =>
         match Reference.skip_ws kr.2 with
         | [] => Raise (Reference.ScanError "Expecting ':' delimiter" 0)
         | c :: r =>
             if c =? 58 then
               bind (Reference.scan_once f (Reference.skip_ws r))
                 (fun vr =>
                    let acc' := (kr.1, vr.1) :: acc in
                    match Reference.skip_ws vr.2 with
                    | [] => Raise (Reference.ScanError "Expecting ',' delimiter" 0)
                    | c1 :: r1 =>
                        if c1 =? 125 then Ok (VDict (Reference.dict_of (rev acc')), r1)
                        else if c1 =? 44 then
                          match Reference.skip_ws r1 with
                          | [] => Raise (Reference.ScanError
                                     "Expecting property name enclosed in double quotes" 0)
                          | c2 :: r2 =>
                              if c2 =? 34
                              then Reference.object_items f (S (length r2)) acc' r2
                              else Raise (Reference.ScanError
                                      "Expecting property name enclosed in double quotes"
                                      (S (length r2)))
                          end
                        else Raise (Reference.ScanError "Expecting ',' delimiter"
                                      (S (length r1)))
                    end)
             else Raise (Reference.ScanError "Expecting ':' delimiter" (S (length r)))
         end).
Proof. reflexivity. Qed.

Lemma entry_literal (k : str) (v : value) :
  literal k = true ->
  Reference.encode_str k ++ [58; 32] ++ Reference.dumps v
  = 34 :: k ++ 34 :: 58 :: 32 :: Reference.dumps v.
Proof.
  intros Hk. unfold Reference.encode_str. rewrite encode_literal by exact Hk.
  simpl. rewrite <- app_assoc. reflexivity.
Qed.

Lemma object_items_dumps (d : list (str * value)) :
  Forall (fun kv => literal kv.1 = true /\ literal_value kv.2 = true /\ reads_back kv.2) d ->
  d <> [] ->
  forall acc fuel start rest body,
    Reference.join [44; 32]
      (map (fun kv => Reference.encode_str kv.1 ++ [58; 32] ++ Reference.dumps kv.2) d)
      ++ 125 :: rest = 34 :: body ->
    (list_sum (map (fun kv => S (size kv.2)) d) <= fuel)%nat ->
    Reference.object_items fuel start acc body
    = Ok (VDict (Reference.dict_of (rev acc ++ d)), rest).
Proof.
  set (entry := fun kv : str * value =>
                  Reference.encode_str kv.1 ++ [58; 32] ++ Reference.dumps kv.2).
  assert (Hentry : forall k v, literal k = true ->
                     entry (k, v) = 34 :: k ++ 34 :: 58 :: 32 :: Reference.dumps v).
  { intros k v Hk. apply entry_literal, Hk. }
  induction 1 as [|[k v] d (Hk & Hv & Hback) Hd IH]; [congruence|].
  intros _ acc fuel start rest body Hbody Hfuel.
  simpl in Hk, Hv, Hback, Hfuel. destruct fuel as [|f]; [lia|].
  change (map entry ((k, v) :: d)) with (entry (k, v) :: map entry d) in Hbody.
  rewrite join_cons, <- app_assoc, Hentry in Hbody by exact Hk.
  change ((34 :: ?a) ++ ?b) with (34 :: (a ++ b)) in Hbody. injection Hbody as <-.
  rewrite <- app_assoc.
  change ((34 :: 58 :: 32 :: ?a) ++ ?b) with (34 :: 58 :: 32 :: (a ++ b)).
  rewrite object_items_step.
  rewrite scanstring_literal; [|exact Hk|rewrite length_app; simpl; lia].
  simpl bind.
  change (Reference.skip_ws (58 :: ?s)) with (58 :: s). cbv beta iota.
  change (58 =? 58) with true. cbv iota.
  change (Reference.skip_ws (32 :: ?s)) with (Reference.skip_ws s).
  rewrite skip_ws_dumps by exact Hv.
  rewrite Hback by lia. simpl bind.
  destruct d as [|[k2 v2] d].
  - reflexivity.
  - change (map entry ((k2, v2) :: d)) with (entry (k2, v2) :: map entry d) in *.
    cbv iota.
    change (Reference.skip_ws ((44 :: 32 :: ?s) ++ ?t)) with (44 :: 32 :: s ++ t).
    cbv beta iota.
    change (44 =? 125) with false. change (44 =? 44) with true. cbv iota.
    change (Reference.skip_ws (32 :: ?s)) with (Reference.skip_ws s).
    inversion Hd as [|? ? (Hk2 & _ & _) _]; subst. simpl in Hk2.
    assert (Hnext : exists body2,
               Reference.join [44; 32] (entry (k2, v2) :: map entry d) ++ 125 :: rest
               = 34 :: body2).
    { rewrite join_cons, <- app_assoc, Hentry by exact Hk2. eexists. reflexivity. }
    destruct Hnext as [body2 Hbody2]. rewrite Hbody2.
    change (Reference.skip_ws (34 :: ?s)) with (34 :: s). cbv beta iota.
    change (34 =? 34) with true. cbv iota.
    rewrite (IH ltac:(discriminate) _ _ _ rest body2 Hbody2); [|simpl in Hfuel |- *; lia].
    simpl. rewrite <- app_assoc. reflexivity.
Qed.

Lemma dict_set_fresh (k : str) (v : value) (d : list (str * value)) :
  k ∉ map fst d -> Reference.dict_set k v d = d ++ [(k, v)].
Proof.
  induction d as [|[k' v'] d IH]; simpl; [reflexivity|].
  intros Hk. apply not_elem_of_cons in Hk as [Hne Hk].
  unfold str_eqb. rewrite bool_decide_eq_false_2 by congruence.
  rewrite IH by exact Hk. reflexivity.
Qed.

Lemma dict_of_nodup (d : list (str * value)) :
  NoDup (map fst d) -> Reference.dict_of d = d.
Proof.
  unfold Reference.dict_of.
  enough (Hgen : forall acc, NoDup (map fst (acc ++ d)) ->
            fold_left (fun d kv => Reference.dict_set kv.1 kv.2 d) d acc = acc ++ d)
    by (intros Hd; apply (Hgen []), Hd).
  induction d as [|[k v] d IH]; intros acc Hnd; simpl.
  - rewrite app_nil_r. reflexivity.
  - rewrite dict_set_fresh.
    + rewrite IH; rewrite <- app_assoc; [reflexivity|exact Hnd].
    + rewrite map_app in Hnd. apply NoDup_app in Hnd as (_ & Hdisj & _).
      intros Hin. apply (Hdisj k Hin). apply list_elem_of_here.
Qed.

Lemma literal_dict_items (d : list (str * value)) :
  literal_value (VDict d) = true ->
  Forall (fun kv => literal kv.1 = true /\ literal_value kv.2 = true) d
  /\ NoDup (map fst d).
Proof.
  simpl. intros H. apply andb_true_iff in H as [Hall Hnd].
  split; [|apply bool_decide_eq_true in Hnd; exact Hnd].
  apply Forall_forall. intros kv Hkv.
  rewrite forallb_forall in Hall. apply andb_true_iff, Hall, list_elem_of_In, Hkv.
Qed.

Lemma literal_list_items (l : list value) :
  literal_value (VList l) = true -> Forall (fun x => literal_value x = true) l.
Proof.
  simpl. intros H. apply Forall_forall. intros x Hx.
  rewrite forallb_forall in H. apply H, list_elem_of_In, Hx.
Qed.

(** The scanner reads every literal value back from its encoding. *)
Lemma reads_back_literal (v : value) : literal_value v = true -> reads_back v.
Proof.
  induction v as [ | b | z | n | s | l IH | d IH ] using value_nested_ind;
    intros Hv fuel rest Hfuel; try discriminate Hv;
    (destruct fuel as [|f]; [simpl in Hfuel; lia|]).
  - reflexivity.
  - destruct b; reflexivity.
  - change (Reference.dumps (VStr s)) with (34 :: flat_map Reference.encode_char s ++ [34]).
    rewrite encode_literal by exact Hv.
    change ((34 :: ?a) ++ ?b) with (34 :: (a ++ b)). rewrite <- app_assoc.
    change ([34] ++ rest) with (34 :: rest).
    change (Reference.scan_once (S f) (34 :: ?s'))
      with (bind (Reference.scanstring (S (length s')) (S (length s')) [] s')
              (fun r => Ok (VStr r.1, r.2))).
    rewrite scanstring_literal; [reflexivity|exact Hv|].
    rewrite length_app. simpl. lia.
  - rewrite dumps_list.
    change ((91 :: ?a) ++ ?b) with (91 :: (a ++ b)). rewrite <- app_assoc.
    change ([93] ++ rest) with (93 :: rest).
    change (Reference.scan_once (S f) (91 :: ?s'))
      with (match Reference.skip_ws s' with
            | c1 :: s1 =>
                if c1 =? 93 then Ok (VList [], s1)
                else Reference.array_items f [] (c1 :: s1)
            | [] => Reference.array_items f [] []
            end).
    apply literal_list_items in Hv.
    destruct l as [|x l]; [reflexivity|].
    assert (Hall : Forall (fun x => literal_value x = true /\ reads_back x) (x :: l)).
    { apply Forall_forall. intros y Hy. rewrite Forall_forall in Hv, IH. auto. }
    pose proof (array_items_dumps (x :: l) Hall ltac:(discriminate) [] f rest) as Hitems.
    simpl in Hfuel. specialize (Hitems ltac:(simpl; lia)).
    revert Hitems.
    change (map Reference.dumps (x :: l)) with (Reference.dumps x :: map Reference.dumps l).
    rewrite join_cons, <- app_assoc.
    inversion Hv as [|? ? Hx _]; subst.
    rewrite skip_ws_dumps by exact Hx.
    destruct (dumps_head x Hx) as (c & t & -> & Hc).
    change ((c :: t) ++ ?b) with (c :: (t ++ b)).
    destruct Hc as [->|[->|[->|[->|[->| ->]]]]]; intros ->; reflexivity.
  - rewrite dumps_dict.
    change ((123 :: ?a) ++ ?b) with (123 :: (a ++ b)). rewrite <- app_assoc.
    change ([125] ++ rest) with (125 :: rest).
    change (Reference.scan_once (S f) (123 :: ?s'))
      with (match Reference.skip_ws s' with
            | [] => Raise (Reference.ScanError
                             "Expecting property name enclosed in double quotes" 0)
            | c1 :: s1 =>
                if c1 =? 125 then Ok (VDict [], s1)
                else if c1 =? 34 then Reference.object_items f (S (length s1)) [] s1
                else Raise (Reference.ScanError
                              "Expecting property name enclosed in double quotes"
                              (S (length s1)))
            end).
    apply literal_dict_items in Hv as [Hv Hnd].
    destruct d as [|[k x] d]; [reflexivity|].
    assert (Hall : Forall (fun kv => literal kv.1 = true /\ literal_value kv.2 = true
                                     /\ reads_back kv.2) ((k, x) :: d)).
    { apply Forall_forall. intros kv Hkv. rewrite Forall_forall in Hv, IH.
      destruct (Hv kv Hkv). auto. }
    inversion Hv as [|? ? [Hk _] _]; subst. simpl in Hk.
    assert (Hbody : exists body,
               Reference.join [44; 32]
                 (map (fun kv => Reference.encode_str kv.1 ++ [58; 32]
                                 ++ Reference.dumps kv.2) ((k, x) :: d))
                 ++ 125 :: rest = 34 :: body).
    { change (map ?g ((k, x) :: d)) with (g (k, x) :: map g d).
      rewrite join_cons, <- app_assoc. cbv beta.
      change ((k, x).1) with k. change ((k, x).2) with x.
      rewrite entry_literal by exact Hk. eexists. reflexivity. }
    destruct Hbody as [body Hbody].
    pose proof (object_items_dumps ((k, x) :: d) Hall ltac:(discriminate)
                  [] f (S (length body)) rest body Hbody) as Hitems.
    simpl in Hfuel. specialize (Hitems ltac:(simpl; lia)).
    rewrite Hbody.
    change (Reference.skip_ws (34 :: ?s)) with (34 :: s). cbv beta iota.
    change (34 =? 125) with false. change (34 =? 34) with true. cbv iota.
    rewrite Hitems. simpl. rewrite dict_of_nodup by exact Hnd. reflexivity.
Qed.

Lemma join_bound {A : Type} (f : A -> nat) (g : A -> str) (l : list A) :
  Forall (fun x => (f x <= length (g x))%nat) l ->
  (list_sum (map (fun x => S (f x)) l)
   <= S (length (Reference.join [44; 32]%N (map g l))))%nat.
Proof.
  induction 1 as [|x l Hx Hl IH]; simpl map; [simpl; lia|].
  rewrite join_cons, length_app. simpl list_sum.
  destruct l as [|y l]; [simpl; lia|].
  change (map g (y :: l)) with (g y :: map g l) in *.
  cbv iota. rewrite length_app. simpl length at 2. simpl in IH |- *. lia.
Qed.

Lemma size_le_dumps (v : value) :
  literal_value v = true -> (size v <= length (Reference.dumps v))%nat.
Proof.
  induction v as [ | b | z | n | s | l IH | d IH ] using value_nested_ind;
    intros Hv; try discriminate Hv.
  - simpl. lia.
  - destruct b; simpl; lia.
  - simpl. lia.
  - rewrite dumps_list. apply literal_list_items in Hv.
    change (size (VList l)) with (S (list_sum (map (fun x => S (size x)) l))).
    simpl length. rewrite length_app. simpl length.
    pose proof (join_bound size Reference.dumps l) as Hb.
    enough (Forall (fun x => (size x <= length (Reference.dumps x))%nat) l)
      by (specialize (Hb ltac:(assumption)); cbv beta in Hb; lia).
    apply Forall_forall. intros x Hx. rewrite Forall_forall in Hv, IH. auto.
  - rewrite dumps_dict. apply literal_dict_items in Hv as [Hv _].
    change (size (VDict d)) with (S (list_sum (map (fun kv => S (size kv.2)) d))).
    change (length (123 :: ?x)) with (S (length x)). rewrite length_app.
    change (length [125]) with 1%nat.
    pose proof (join_bound (fun kv => size kv.2)
                  (fun kv => Reference.encode_str kv.1 ++ [58; 32] ++ Reference.dumps kv.2)
                  d) as Hb.
    enough (Forall (fun kv => (size kv.2 <= length (Reference.encode_str kv.1 ++ [58; 32]%N
                                                    ++ Reference.dumps kv.2))%nat) d)
      by (specialize (Hb ltac:(assumption)); cbv beta in Hb; lia).
    apply Forall_forall. intros kv Hkv. rewrite Forall_forall in Hv, IH.
    destruct (Hv kv Hkv) as [_ Hx]. specialize (IH kv Hkv Hx).
    rewrite !length_app. lia.
Qed.

(** The reference decoder is a left inverse of the reference encoder on
    literal values. *)
Lemma loads_dumps (v : value) :
  literal_value v = true -> Reference.loads (Reference.dumps v) = Ok v.
Proof.
  intros Hv. unfold Reference.loads.
  pose proof (skip_ws_dumps v [] Hv) as Hws. rewrite app_nil_r in Hws.
  pose proof (reads_back_literal v Hv (2 * length (Reference.dumps v) + 2)%nat []) as Hscan.
  rewrite app_nil_r in Hscan.
  rewrite Hws, Hscan by (pose proof (size_le_dumps v Hv); lia).
  destruct (dumps_head v Hv) as (c & t & -> & Hc).
  destruct Hc as [->|[->|[->|[->|[->| ->]]]]]; reflexivity.
Qed.

Lemma literal_no_backslash (s : str) : literal s = true -> Forall (fun c => c <> 92) s.
Proof.
  intros Hs. apply Forall_forall. intros c Hc.
  unfold literal in Hs. rewrite forallb_forall in Hs.
  apply list_elem_of_In, Hs, literal_char_spec in Hc. tauto.
Qed.

Lemma join_Forall (P : char -> Prop) (sep : str) (parts : list str) :
  Forall P sep -> Forall (Forall P) parts -> Forall P (Reference.join sep parts).
Proof.
  intros Hsep. induction 1 as [|p parts Hp Hparts IH]; [constructor|].
  rewrite join_cons. apply Forall_app. split; [exact Hp|].
  destruct parts; [constructor|]. apply Forall_app. split; [exact Hsep|exact IH].
Qed.

(** The encoding of a literal value holds no backslash. *)
Lemma dumps_no_backslash (v : value) :
  literal_value v = true -> Forall (fun c => c <> 92) (Reference.dumps v).
Proof.
  induction v as [ | b | z | n | s | l IH | d IH ] using value_nested_ind;
    intros Hv; try discriminate Hv.
  - repeat constructor; discriminate.
  - destruct b; repeat constructor; discriminate.
  - change (Reference.dumps (VStr s)) with (34 :: flat_map Reference.encode_char s ++ [34]).
    rewrite encode_literal by exact Hv.
    constructor; [discriminate|]. apply Forall_app. split.
    + apply literal_no_backslash, Hv.
    + repeat constructor; discriminate.
  - rewrite dumps_list. apply literal_list_items in Hv.
    constructor; [discriminate|]. apply Forall_app. split.
    + apply join_Forall; [repeat constructor; discriminate|].
      apply Forall_forall. intros p Hp.
      apply list_elem_of_In, in_map_iff in Hp as (x & <- & Hx).
      apply list_elem_of_In in Hx. rewrite Forall_forall in Hv, IH. auto.
    + repeat constructor; discriminate.
  - rewrite dumps_dict. apply literal_dict_items in Hv as [Hv _].
    constructor; [discriminate|]. apply Forall_app. split.
    + apply join_Forall; [repeat constructor; discriminate|].
      apply Forall_forall. intros p Hp.
      apply list_elem_of_In, in_map_iff in Hp as ([k x] & <- & Hx).
      apply list_elem_of_In in Hx. rewrite Forall_forall in Hv, IH.
      destruct (Hv _ Hx) as [Hk Hlit]. simpl in Hk, Hlit.
      change ((k, x).1) with k. change ((k, x).2) with x.
      rewrite entry_literal by exact Hk.
      constructor; [discriminate|]. apply Forall_app. split.
      * apply literal_no_backslash, Hk.
      * repeat (constructor; [discriminate|]). apply (IH _ Hx), Hlit.
    + repeat constructor; discriminate.
Qed.

Lemma string_constant_escape_quotes (t : str) :
  Forall (fun c => c <> 92) t ->
  forall fuel, (length (escape_quotes t) < fuel)%nat ->
               string_constant fuel (escape_quotes t) = Some t.
Proof.
  induction 1 as [|c t Hc Ht IH]; intros fuel Hfuel;
    (destruct fuel as [|f]; [lia|]); [reflexivity|].
  unfold escape_quotes, str_replace in *. simpl flat_map in *.
  destruct (N.eqb_spec c 39) as [->|Hq].
  - change ([92; 39] ++ ?x) with (92 :: 39 :: x) in *.
    simpl in Hfuel.
    simpl. rewrite IH by lia. reflexivity.
  - change ([c] ++ ?x) with (c :: x) in *. simpl in Hfuel.
    simpl. destruct (N.eqb_spec c 39); [contradiction|].
    destruct (N.eqb_spec c 92); [contradiction|].
    rewrite IH by lia. reflexivity.
Qed.

Lemma constant_escape_quotes (t : str) :
  Forall (fun c => c <> 92) t -> constant (escape_quotes t) = Some t.
Proof. intros Ht. apply string_constant_escape_quotes; [exact Ht|lia]. Qed.

Lemma stored_literal (v : value) :
  literal_value v = true ->
  @links_of_row Reference.python (@stored Reference.snowflake v) = Ok v.
Proof.
  intros Hv. unfold links_of_row, stored. simpl.
  rewrite loads_dumps by exact Hv. reflexivity.
Qed.

Lemma parse_json_literal (v : value) :
  literal_value v = true ->
  @PARSE_JSON Reference.snowflake (Reference.dumps v) = Some v.
Proof. intros Hv. simpl. rewrite loads_dumps by exact Hv. reflexivity. Qed.

Lemma names_update_same (sel : str) (c : value) (t : table) :
  names (map (fun r => if str_eqb (NAME r) sel
                       then {| NAME := sel; LINKS := c |} else r) t) = names t.
Proof.
  unfold names. rewrite map_map. apply map_ext. intros r.
  unfold str_eqb. destruct (bool_decide_reflect (NAME r = sel)); [symmetry|]; auto.
Qed.

(** With the reference libraries, an area created under a plain, new name
    with literal links is listed with exactly the links the text decodes
    to, beside the areas that were listed. *)
Lemma create_area_round_trip (new_area text : str) (s : session) (items : list value) :
  Reference.loads text = Ok (VList items) ->
  literal_value (VList items) = true ->
  plain new_area ->
  new_area ∉ names (rows s) ->
  NoDup (names (rows s)) ->
  let after := @btn_add_area Reference.python Reference.snowflake new_area text s in
  after.1 = [st_success (py "Área adicionada com sucesso!"); st_rerun]
  /\ (forall before,
        @load_areas_from_sf Reference.python (rows s) = Ok before ->
        exists areas,
          @load_areas_from_sf Reference.python (rows after.2) = Ok areas
          /\ {| name := new_area; links := VList items |} ∈ areas
          /\ (forall a, a ∈ before -> a ∈ areas)).
Proof.
  intros Htext Hlit Hname Hnew Hnd after. subst after.
  rewrite (@btn_add_area_rows Reference.python Reference.snowflake
             new_area text s items new_area (Reference.dumps (VList items))
             (VList items)).
  - split; [reflexivity|]. intros before Hload. cbn [snd rows].
    apply (@load_areas_insert Reference.python); [exact Hload|].
    apply stored_literal, Hlit.
  - exact Htext.
  - apply constant_plain, Hname.
  - apply constant_escape_quotes, dumps_no_backslash, Hlit.
  - apply parse_json_literal, Hlit.
  - unfold violates_key. apply andb_false_iff. right.
    apply negb_false_iff, bool_decide_eq_true.
    unfold names in *. rewrite map_app. simpl.
    apply NoDup_app. split; [exact Hnd|]. split.
    + intros x Hx Hin. apply list_elem_of_singleton in Hin as ->. contradiction.
    + apply NoDup_singleton.
Qed.

(** With the reference libraries, replacing the links of an area of a
    plain name by literal links, under the same name, lists the area with
    exactly the links the text decodes to, and leaves the other rows. *)
Lemma replace_area_round_trip (sel text : str) (s : session) (parsed : value) :
  Reference.loads text = Ok parsed ->
  literal_value parsed = true ->
  plain sel ->
  sel ∈ names (rows s) ->
  NoDup (names (rows s)) ->
  let after := @btn_upd_area Reference.python Reference.snowflake sel sel text s in
  after.1 = [st_success (py "Área atualizada com sucesso!"); st_rerun]
  /\ (forall before,
        @load_areas_from_sf Reference.python (rows s) = Ok before ->
        exists areas,
          @load_areas_from_sf Reference.python (rows after.2) = Ok areas
          /\ {| name := sel; links := parsed |} ∈ areas
          /\ (forall a, a ∈ before -> name a <> sel -> a ∈ areas))
  /\ (forall r, r ∈ rows s -> NAME r <> sel -> r ∈ rows after.2).
Proof.
  intros Htext Hlit Hname Hsel Hnd after. subst after.
  rewrite (@btn_upd_area_rows Reference.python Reference.snowflake
             sel sel text s parsed parsed sel sel (Reference.dumps parsed)).
  - split; [reflexivity|]. cbn [snd rows]. split.
    + intros before Hload.
      destruct (@load_areas_update Reference.python (rows s) before sel sel
                  (@stored Reference.snowflake parsed) parsed Hload
                  (stored_literal parsed Hlit))
        as (areas & Hareas & Hin & Hframe & _).
      exists areas. auto.
    + intros r Hr Hne. apply update_frame; assumption.
  - exact Htext.
  - apply constant_plain, Hname.
  - apply constant_escape_quotes, dumps_no_backslash, Hlit.
  - apply constant_plain, Hname.
  - apply parse_json_literal, Hlit.
  - unfold violates_key. apply andb_false_iff. right.
    apply negb_false_iff, bool_decide_eq_true.
    rewrite names_update_same. exact Hnd.
Qed.

(** * Further properties of the page

    The view tab as it is drawn, the management tab and who reaches it,
    what the handlers of the areas and of the projects leave alone, and
    how the handlers compose with the listing. *)

(** ** Drawing the view tab *)

Lemma draw_sublinks_ok (subs : list value) :
  forallb is_sublink subs = true ->
  (draw_sublinks subs).2 = None
  /\ omap heading (draw_sublinks subs).1 = []
  /\ length (List.filter is_divider (draw_sublinks subs).1) = length subs.
Proof.
  induction subs as [|sub subs IH]; simpl; [auto|].
  intros Hall. apply andb_true_iff in Hall as [Hsub Hall].
  destruct sub as [ | | | | | |d]; try discriminate Hsub. simpl in Hsub.
  apply andb_true_iff in Hsub as [Hurl Htut].
  apply bool_decide_eq_true in Hurl as [url Hurl], Htut as [tut Htut].
  unfold getitem. rewrite Hurl, Htut. simpl.
  destruct (IH Hall) as (Hnone & Hhead & Hdiv). auto.
Qed.

Lemma draw_links_ok (items : list value) :
  forallb is_project items = true ->
  (draw_links items).2 = None
  /\ omap heading (draw_links items).1 = omap project_name items
  /\ length (List.filter is_divider (draw_links items).1)
     = list_sum (map (fun p => length (project_sublinks p)) items).
Proof.
  induction items as [|p items IH]; [simpl; auto|].
  intros Hall. simpl in Hall. apply andb_true_iff in Hall as [Hp Hall].
  destruct (IH Hall) as (Hnone & Hhead & Hdiv).
  destruct p as [ | | | | | |d]; try discriminate Hp. simpl in Hp.
  apply andb_true_iff in Hp as [Hname Hsubs].
  apply bool_decide_eq_true in Hname as [n Hname].
  cbn [draw_links project_name project_sublinks map list_sum omap].
  rewrite Hname.
  assert (Hs : exists subs,
             py_iter (default (VList []) (dict_get (py "sublinks") d)) = Ok subs
             /\ forallb is_sublink subs = true
             /\ match dict_get (py "sublinks") d with
                | Some (VList l) => l
                | _ => []
                end = subs).
  { destruct (dict_get (py "sublinks") d) as [[ | | | | |subs| ]|];
      try discriminate Hsubs; eexists; (split; [reflexivity|]); auto. }
  destruct Hs as (subs & -> & Hsub & ->).
  destruct (draw_sublinks_ok subs Hsub) as (-> & Hh & Hd).
  cbn [fst snd]. rewrite Hnone. split; [reflexivity|]. split.
  - simpl. rewrite Hname, omap_app, Hh, Hhead. reflexivity.
  - cbn [List.filter is_divider]. rewrite List.filter_app, length_app, Hd, Hdiv.
    reflexivity.
Qed.

Lemma draw_sublinks_no_note (subs : list value) :
  Forall (fun w => forall m, w <> st_write m) (draw_sublinks subs).1.
Proof.
  induction subs as [|sub subs IH]; simpl; [constructor|].
  destruct (getitem sub (py "url")); [|constructor].
  destruct (getitem sub (py "tutorial_url")); [|constructor].
  simpl. repeat (constructor; [discriminate|]). exact IH.
Qed.

Lemma draw_links_no_note (items : list value) :
  Forall (fun w => forall m, w <> st_write m) (draw_links items).1.
Proof.
  induction items as [|[ | | | | | |d] items IH]; simpl; try constructor.
  destruct (dict_get (py "name") d); [|constructor].
  destruct (py_iter _) as [subs|e]; [|repeat constructor; discriminate].
  pose proof (draw_sublinks_no_note subs) as Hsub.
  destruct (draw_sublinks subs).2; simpl.
  - constructor; [discriminate|exact Hsub].
  - constructor; [discriminate|]. apply Forall_app. split; assumption.
Qed.

(** X1. An area whose links have the format of the forms is drawn to the
    end without an exception: one heading for each project, in order, one
    divider for each sublink, and the note on the empty area exactly when
    it has no project. *)
Theorem view_draws_catalog (a : area) :
  is_catalog (links a) = true ->
  exists items,
    links a = VList items
    /\ (draw_area a).2 = None
    /\ omap heading (draw_area a).1 = omap project_name items
    /\ length (List.filter is_divider (draw_area a).1)
       = list_sum (map (fun p => length (project_sublinks p)) items)
    /\ (st_write (py "Nenhum aplicativo disponível nesta área.") ∈ (draw_area a).1
        <-> items = []).
Proof.
  unfold draw_area. destruct (links a) as [ | | | | |items| ]; try discriminate.
  simpl. intros Hcat. exists items. split; [reflexivity|].
  destruct (draw_links_ok items Hcat) as (Hnone & Hhead & Hdiv).
  destruct items as [|p items].
  - simpl. repeat split; auto. intros _. apply list_elem_of_here.
  - cbn [app]. repeat split; auto; [|discriminate].
    intros Hin. exfalso.
    pose proof (draw_links_no_note (p :: items)) as Hw.
    rewrite Forall_forall in Hw. eapply Hw; [exact Hin|reflexivity].
Qed.

Lemma view_draws_catalog_witness :
  exists items,
    links Example.budget = VList items
    /\ (draw_area Example.budget).2 = None
    /\ omap heading (draw_area Example.budget).1 = omap project_name items
    /\ length (List.filter is_divider (draw_area Example.budget).1)
       = list_sum (map (fun p => length (project_sublinks p)) items)
    /\ (st_write (py "Nenhum aplicativo disponível nesta área.")
          ∈ (draw_area Example.budget).1
        <-> items = []).
Proof. apply view_draws_catalog. vm_compute. reflexivity. Defined.

(** X2. Links that are not a list: the empty string and the empty dict are
    drawn as an area without projects; every other value ends the script
    with a TypeError. *)
Theorem view_raises_on_non_list (a : area) :
  isinstance_list (links a) = false ->
  match links a with
  | VStr [] | VDict [] =>
      draw_area a = ([st_write (py "Nenhum aplicativo disponível nesta área.")], None)
  | _ => (draw_area a).2 = Some TypeError
  end.
Proof.
  unfold draw_area.
  destruct (links a) as [ |b|z|n|[|c s]|items|[|[k v] d]]; try discriminate;
    intros _; reflexivity.
Qed.

Lemma view_raises_on_non_list_witness :
  (draw_area {| name := py "Finance"; links := VDict [(py "a", VInt 1)] |}).2
  = Some TypeError.
Proof.
  apply (view_raises_on_non_list
           {| name := py "Finance"; links := VDict [(py "a", VInt 1)] |}).
  reflexivity.
Defined.

(** The expanders drawn from index [idx] on. *)
Lemma draw_expanders_spec (shown : list area) :
  forall idx,
    (forall i e, (draw_expanders idx shown).1 !! i = Some e ->
       column e = ((idx + i) mod 2)%nat
       /\ exists a, shown !! i = Some a /\ title e = name a /\ body e = (draw_area a).1)
    /\ ((draw_expanders idx shown).2 = None ->
        length (draw_expanders idx shown).1 = length shown).
Proof.
  induction shown as [|a shown IH]; intros idx; simpl.
  - split; [|reflexivity]. intros i e Hi. rewrite lookup_nil in Hi. discriminate.
  - destruct (draw_area a).2 as [x|] eqn:Hx; simpl.
    + split; [|discriminate]. intros [|i] e Hi; simpl in Hi; [|rewrite lookup_nil in Hi; discriminate].
      injection Hi as <-. simpl. rewrite Nat.add_0_r. split; [reflexivity|].
      exists a. auto.
    + destruct (IH (S idx)) as [Hat Hlen]. split.
      * intros [|i] e Hi; simpl in Hi.
        -- injection Hi as <-. simpl. rewrite Nat.add_0_r. split; [reflexivity|].
           exists a. auto.
        -- destruct (Hat i e Hi) as [Hcol Ha]. split; [|exact Ha].
           rewrite Hcol. replace (S idx + i)%nat with (idx + S i)%nat by lia. reflexivity.
      * intros Hnone. rewrite Hlen by exact Hnone. reflexivity.
Qed.

Lemma draw_area_ok (a : area) :
  is_catalog (links a) = true -> (draw_area a).2 = None.
Proof.
  unfold draw_area. destruct (links a) as [ | | | | |items| ]; try discriminate.
  simpl. intros Hcat. apply (draw_links_ok items Hcat).
Qed.

Lemma draw_expanders_ok (shown : list area) :
  Forall (fun a => is_catalog (links a) = true) shown ->
  forall idx, (draw_expanders idx shown).2 = None.
Proof.
  induction 1 as [|a shown Ha Hshown IH]; intros idx; simpl; [reflexivity|].
  rewrite (draw_area_ok a Ha). apply IH.
Qed.

(** X3. A user with a list of allowed areas is shown the listed areas whose
    name is in it, in listing order, and no other: no expander is drawn
    under a name outside the list. *)
Theorem view_shows_only_allowed (allowed : list str) (areas : list area) :
  let shown := areas_to_show (Only allowed) areas in
  shown `sublist_of` areas
  /\ (forall a, a ∈ shown <-> a ∈ areas /\ name a ∈ allowed)
  /\ (forall e, e ∈ (draw_expanders 0 shown).1 -> title e ∈ allowed).
Proof.
  simpl. split; [apply sublist_filter|]. split.
  - intros a. rewrite list_elem_of_filter. tauto.
  - intros e He. apply list_elem_of_lookup in He as [i Hi].
    destruct (draw_expanders_spec (filter (fun a => name a ∈ allowed) areas) 0%nat)
      as [Hat _].
    destruct (Hat i e Hi) as (_ & a & Ha & -> & _).
    apply list_elem_of_lookup_2, list_elem_of_filter in Ha. tauto.
Qed.

(** X4. Areas whose links all have the format of the forms are all drawn,
    without an exception, in listing order and in turn in the left and in the
    right column. *)
Theorem view_columns_alternate (shown : list area) :
  Forall (fun a => is_catalog (links a) = true) shown ->
  (draw_expanders 0 shown).2 = None
  /\ length (draw_expanders 0 shown).1 = length shown
  /\ (forall i a, shown !! i = Some a ->
        exists e, (draw_expanders 0 shown).1 !! i = Some e
                  /\ column e = (i mod 2)%nat /\ title e = name a
                  /\ body e = (draw_area a).1).
Proof.
  intros Hcat. pose proof (draw_expanders_ok shown Hcat 0%nat) as Hnone.
  destruct (draw_expanders_spec shown 0%nat) as [Hat Hlen].
  specialize (Hlen Hnone). split; [exact Hnone|]. split; [exact Hlen|].
  intros i a Ha.
  destruct ((draw_expanders 0 shown).1 !! i) as [e|] eqn:He.
  - exists e. split; [reflexivity|].
    destruct (Hat i e He) as (Hcol & a' & Ha' & Ht & Hb).
    assert (a' = a) as -> by congruence. auto.
  - apply lookup_ge_None in He. apply lookup_lt_Some in Ha. lia.
Qed.

Lemma view_columns_alternate_witness :
  let shown := [Example.budget; {| name := py "Vendas"; links := VList [] |};
                Example.budget] in
  (draw_expanders 0 shown).2 = None
  /\ length (draw_expanders 0 shown).1 = length shown
  /\ (forall i a, shown !! i = Some a ->
        exists e, (draw_expanders 0 shown).1 !! i = Some e
                  /\ column e = (i mod 2)%nat /\ title e = name a
                  /\ body e = (draw_area a).1).
Proof.
  apply view_columns_alternate. repeat constructor.
Defined.

(** ** The management tab *)

(** X5. The second tab is there only for a username whose lower case is
    that of spdo, the one key whose value is the string all; every other
    username has the view tab alone. *)
Theorem manage_tab_only_for_spdo `{Python} (username : str) :
  tab_manage (permitted username) <> None ->
  str_lower username = str_lower (py "spdo")
  /\ permitted username = All
  /\ tab_manage (permitted username) = Some (py "Gerenciamento").
Proof.
  unfold permitted, user_permissions, raw_permissions. simpl.
  destruct (decide (str_lower (py "test_user") = str_lower username)) as [E|E].
  - rewrite <- E, lookup_insert_eq. simpl. intros Hno. contradiction Hno. reflexivity.
  - rewrite lookup_insert_ne by exact E.
    destruct (decide (str_lower (py "spdo") = str_lower username)) as [E'|E'].
    + rewrite <- E', lookup_insert_eq. simpl. intros _. repeat split.
    + rewrite lookup_insert_ne by exact E'. rewrite lookup_empty. simpl.
      intros Hno. contradiction Hno. reflexivity.
Qed.

Lemma manage_tab_only_for_spdo_witness :
  Reference.lower (py "SpDo") = Reference.lower (py "spdo")
  /\ @permitted Reference.python (py "SpDo") = All
  /\ tab_manage (@permitted Reference.python (py "SpDo")) = Some (py "Gerenciamento").
Proof.
  apply (@manage_tab_only_for_spdo Reference.python (py "SpDo")).
  vm_compute. discriminate.
Defined.

(** ** What the handlers leave alone *)

Lemma names_update_links (c : value) (o : str) (t : table) :
  names (map (fun r => if str_eqb (NAME r) o
                       then {| NAME := NAME r; LINKS := c |} else r) t) = names t.
Proof.
  unfold names. rewrite map_map. apply map_ext. intros r.
  destruct (str_eqb (NAME r) o); reflexivity.
Qed.

Lemma sent_since_same (s : session) : sent_since s s = [].
Proof. unfold sent_since. apply drop_all. Qed.

Lemma sent_since_sql `{Snowflake} (q : statement) (s : session) :
  sent_since s (session_sql q s).2 = [q].
Proof.
  unfold sent_since, session_sql. destruct (execute q (rows s)); simpl;
    apply drop_app_length.
Qed.

(** Where a handler leaves the session: as it was, or as its one
    statement left it. *)
Lemma btn_add_proj_session `{Python} `{Snowflake}
    (areas : list area) (sel_area proj_name text : str) (s : session) :
  (btn_add_proj areas sel_area proj_name text s).2 = s
  \/ exists doc, (btn_add_proj areas sel_area proj_name text s).2
                 = (session_sql (UPDATE_LINKS doc sel_area) s).2.
Proof.
  unfold btn_add_proj. destruct (json_loads text) as [subs|e]; [|destruct e; auto].
  destruct (bind _ _) as [updated|e]; [|auto].
  right. exists (json_dumps updated). destruct (session_sql _ s) as [[?|?] ?]; reflexivity.
Qed.

Lemma btn_del_proj_session `{Python} `{Snowflake}
    (areas : list area) (sel_area : str) (sel_proj : value) (s : session)
    (out : list ui) (s' : session) :
  btn_del_proj areas sel_area sel_proj s = Ok (out, s') ->
  s' = s \/ exists doc, s' = (session_sql (UPDATE_LINKS doc sel_area) s).2.
Proof.
  unfold btn_del_proj.
  destruct (del_proj_form areas sel_area) as [form|e]; simpl; [|discriminate].
  destruct (bind _ _) as [updated|e]; [|intros [= <- <-]; auto].
  intros Hr. right. exists (json_dumps (VList updated)).
  destruct (session_sql _ s) as [[?|?] ?]; injection Hr as <- <-; reflexivity.
Qed.

Lemma btn_upd_proj_session `{Python} `{Snowflake}
    (areas : list area) (sel_area : str) (sel_proj : value)
    (proj_name text : str) (s : session) (out : list ui) (s' : session) :
  btn_upd_proj areas sel_area sel_proj proj_name text s = Ok (Clicked out s') ->
  s' = s \/ exists doc, s' = (session_sql (UPDATE_LINKS doc sel_area) s).2.
Proof.
  unfold btn_upd_proj.
  destruct (find_area areas sel_area) as [a|e]; simpl; [|discriminate].
  destruct (truthy (links a)); simpl; [|discriminate].
  destruct (py_iter (links a)) as [items|e]; simpl; [|discriminate].
  destruct (proj_names items); simpl; [|discriminate].
  destruct (find_project sel_proj items) as [[p|]|e]; simpl; try discriminate.
  destruct (json_loads text) as [subs|e]; [|destruct e; intros [= <- <-]; auto].
  destruct (replace_project _ _ _) as [updated|e]; [|intros [= <- <-]; auto].
  intros Hr. right. exists (json_dumps (VList updated)).
  destruct (session_sql _ s) as [[?|?] ?]; injection Hr as <- <-; reflexivity.
Qed.

Lemma update_links_names `{Snowflake} (doc sel : str) (s : session) :
  as_written (UPDATE_LINKS doc sel) ->
  names (rows (session_sql (UPDATE_LINKS doc sel) s).2) = names (rows s).
Proof.
  unfold as_written. simpl. intros Hw.
  apply Forall_cons in Hw as [[j Hj] Hw]. apply Forall_cons in Hw as [[o Ho] _].
  unfold session_sql, execute. rewrite Hj, Ho.
  destruct (PARSE_JSON j); [|reflexivity]. simpl. apply names_update_links.
Qed.

Lemma project_session_names `{Snowflake} (sel_area : str) (s s' : session) :
  s' = s \/ (exists doc, s' = (session_sql (UPDATE_LINKS doc sel_area) s).2) ->
  Forall as_written (sent_since s s') ->
  names (rows s') = names (rows s).
Proof.
  intros [->|[doc ->]]; [reflexivity|].
  rewrite sent_since_sql. intros Hw. apply Forall_inv in Hw.
  apply update_links_names, Hw.
Qed.

(** X6. A handler of the projects whose statement reaches the warehouse
    as written (no text spliced into it ends its constant early) does not
    add, remove or rename an area: the names of the rows are afterwards
    what they were, in the same order. *)
Theorem project_handlers_keep_areas `{Python} `{Snowflake}
    (areas : list area) (sel_area : str) (sel_proj : value)
    (proj_name text : str) (s : session) :
  (Forall as_written (sent_since s (btn_add_proj areas sel_area proj_name text s).2) ->
   names (rows (btn_add_proj areas sel_area proj_name text s).2) = names (rows s))
  /\ (forall out s', btn_del_proj areas sel_area sel_proj s = Ok (out, s') ->
        Forall as_written (sent_since s s') ->
        names (rows s') = names (rows s))
  /\ (forall out s',
        btn_upd_proj areas sel_area sel_proj proj_name text s = Ok (Clicked out s') ->
        Forall as_written (sent_since s s') ->
        names (rows s') = names (rows s)).
Proof.
  split; [|split].
  - apply (project_session_names sel_area), btn_add_proj_session.
  - intros out s' Hr. apply (project_session_names sel_area).
    apply (btn_del_proj_session areas sel_area sel_proj s out s' Hr).
  - intros out s' Hr. apply (project_session_names sel_area).
    apply (btn_upd_proj_session areas sel_area sel_proj proj_name text s out s' Hr).
Qed.

Lemma project_handlers_keep_areas_witness :
  names (rows (@btn_add_proj Reference.python Reference.snowflake [Example.budget]
                 (py "Finance") (py "Budgeting") (py "[]") Example.s1).2)
  = names (rows Example.s1).
Proof.
  apply (@project_handlers_keep_areas Reference.python Reference.snowflake
           [Example.budget] (py "Finance") VNone (py "Budgeting") (py "[]") Example.s1).
  vm_compute. repeat constructor; eexists; reflexivity.
Defined.

Lemma btn_add_area_session `{Python} `{Snowflake} (name text : str) (s : session) :
  (btn_add_area name text s).2 = s
  \/ exists doc, (btn_add_area name text s).2
                 = (session_sql (INSERT_AREA name doc) s).2.
Proof.
  unfold btn_add_area. destruct (json_loads text) as [v|e]; [|destruct e; auto].
  destruct (negb _); [auto|].
  right. exists (escape_quotes (json_dumps v)).
  destruct (session_sql _ s) as [[?|?] ?]; reflexivity.
Qed.

Lemma btn_upd_area_session `{Python} `{Snowflake} (sel name text : str) (s : session) :
  (btn_upd_area sel name text s).2 = s
  \/ exists doc, (btn_upd_area sel name text s).2
                 = (session_sql (UPDATE_AREA name doc sel) s).2.
Proof.
  unfold btn_upd_area. destruct (json_loads text) as [v|e]; [|destruct e; auto].
  right. exists (escape_quotes (json_dumps v)).
  destruct (session_sql _ s) as [[?|?] ?]; reflexivity.
Qed.

Lemma btn_del_area_session `{Snowflake} (sel : str) (s : session) :
  (btn_del_area sel s).2 = (session_sql (DELETE_AREA sel) s).2.
Proof.
  unfold btn_del_area. destruct (session_sql _ s) as [[?|?] ?]; reflexivity.
Qed.

(** The rows of another name are left alone by [btn_upd_area], when its
    statement reaches the warehouse as written. *)
Lemma replace_area_frame `{Python} `{Snowflake}
    (sel new_area_name text : str) (s : session) (r : row) :
  plain sel ->
  Forall as_written (sent_since s (btn_upd_area sel new_area_name text s).2) ->
  r ∈ rows s -> NAME r <> sel ->
  r ∈ rows (btn_upd_area sel new_area_name text s).2.
Proof.
  intros Hsel Hw Hr Hne. revert Hw.
  destruct (btn_upd_area_session sel new_area_name text s) as [->|[doc ->]];
    [intros _; exact Hr|].
  rewrite sent_since_sql. intros Hw. apply Forall_inv in Hw.
  unfold as_written in Hw. simpl in Hw.
  apply Forall_cons in Hw as [[n Hn] Hw]. apply Forall_cons in Hw as [[j Hj] _].
  unfold session_sql, execute. rewrite Hn, Hj, (constant_plain _ Hsel).
  destruct (PARSE_JSON j); [|exact Hr].
  destruct (_ && _); simpl; [exact Hr|apply update_frame; assumption].
Qed.

(** X7. The handlers of the areas and the rows, when the statement they
    send reaches the warehouse as written (no text spliced into it ends
    its constant early): an update does not create or remove a row; a
    creation leaves the rows there as they are and adds at most one, at
    the end; a deletion adds none and leaves those it keeps in their
    order. *)
Theorem area_handlers_and_rows `{Python} `{Snowflake}
    (sel name text : str) (s : session) :
  (Forall as_written (sent_since s (btn_upd_area sel name text s).2) ->
   length (rows (btn_upd_area sel name text s).2) = length (rows s))
  /\ (Forall as_written (sent_since s (btn_add_area name text s).2) ->
      rows (btn_add_area name text s).2 = rows s
      \/ exists r, rows (btn_add_area name text s).2 = rows s ++ [r])
  /\ (Forall as_written (sent_since s (btn_del_area sel s).2) ->
      rows (btn_del_area sel s).2 `sublist_of` rows s).
Proof.
  split; [|split].
  - destruct (btn_upd_area_session sel name text s) as [->|[doc ->]]; [reflexivity|].
    rewrite sent_since_sql. intros Hw. apply Forall_inv in Hw.
    unfold as_written in Hw. simpl in Hw.
    apply Forall_cons in Hw as [[n Hn] Hw]. apply Forall_cons in Hw as [[j Hj] Hw].
    apply Forall_cons in Hw as [[o Ho] _].
    unfold session_sql, execute. rewrite Hn, Hj, Ho.
    destruct (PARSE_JSON j); [|reflexivity].
    destruct (_ && _); simpl; [reflexivity|apply length_map].
  - destruct (btn_add_area_session name text s) as [->|[doc ->]]; [auto|].
    rewrite sent_since_sql. intros Hw. apply Forall_inv in Hw.
    unfold as_written in Hw. simpl in Hw.
    apply Forall_cons in Hw as [[n Hn] Hw]. apply Forall_cons in Hw as [[j Hj] _].
    unfold session_sql, execute. rewrite Hn, Hj.
    destruct (PARSE_JSON j); [|auto].
    destruct (violates_key _); simpl; [auto|right; eexists; reflexivity].
  - rewrite btn_del_area_session, sent_since_sql. intros Hw.
    apply Forall_inv in Hw. unfold as_written in Hw. simpl in Hw.
    apply Forall_cons in Hw as [[o Ho] _].
    unfold session_sql, execute. rewrite Ho. simpl. apply sublist_filter.
Qed.

Lemma area_handlers_and_rows_witness :
  length (rows (@btn_upd_area Reference.python Reference.snowflake
                  (py "Finance") (py "Tesouraria") (py "[]") Example.s0).2)
  = length (rows Example.s0).
Proof.
  apply (@area_handlers_and_rows Reference.python Reference.snowflake
           (py "Finance") (py "Tesouraria") (py "[]") Example.s0).
  vm_compute. repeat constructor; eexists; reflexivity.
Defined.

(** ** Adding and updating a project *)

(** X8. [btn_add_proj] sends a statement only when the sublinks decode,
    the area is among those loaded and its links are a list; the document
    is then that list with the new project at its end, the projects there
    untouched.  The decoded sublinks go in as they are, whatever their
    shape, and a project of the same name may already be there. *)
Theorem add_project_appends `{Python} `{Snowflake}
    (areas : list area) (sel_area proj_name text : str) (s : session) :
  (forall new_sublinks area_obj items,
     json_loads text = Ok new_sublinks ->
     find_area areas sel_area = Ok area_obj ->
     links area_obj = VList items ->
     sent (btn_add_proj areas sel_area proj_name text s).2
     = sent s ++ [UPDATE_LINKS
                    (json_dumps (VList (items ++ [VDict [(py "name", VStr proj_name);
                                                         (py "sublinks", new_sublinks)]])))
                    sel_area])
  /\ ((btn_add_proj areas sel_area proj_name text s).2 <> s ->
      exists new_sublinks area_obj items,
        json_loads text = Ok new_sublinks
        /\ find_area areas sel_area = Ok area_obj
        /\ links area_obj = VList items).
Proof.
  unfold btn_add_proj. split.
  - intros new_sublinks area_obj items -> -> Hlinks. simpl. rewrite Hlinks. simpl.
    unfold session_sql. destruct (execute _ _); reflexivity.
  - destruct (json_loads text) as [new_sublinks|e]; simpl;
      [|destruct e; simpl; congruence].
    destruct (find_area areas sel_area) as [area_obj|e]; simpl; [|congruence].
    destruct (links area_obj) as [ | | | | |items| ] eqn:Hlinks; simpl; try congruence.
    intros _. exists new_sublinks, area_obj, items. auto.
Qed.

Lemma add_project_appends_witness :
  sent (@btn_add_proj Reference.python Reference.snowflake
          [Example.budget] (py "Finance") (py "Budgeting") (py "null") Example.s1).2
  = [UPDATE_LINKS
       (Reference.dumps
          (VList [Example.project (py "Budgeting"); Example.project (py "Payroll");
                  Example.project (py "Budgeting");
                  VDict [(py "name", VStr (py "Budgeting")); (py "sublinks", VNone)]]))
       (py "Finance")].
Proof.
  destruct (@add_project_appends Reference.python Reference.snowflake
              [Example.budget] (py "Finance") (py "Budgeting") (py "null") Example.s1)
    as [Hsent _].
  apply (Hsent VNone Example.budget
               [Example.project (py "Budgeting"); Example.project (py "Payroll");
                Example.project (py "Budgeting")]).
  - vm_compute. reflexivity.
  - vm_compute. reflexivity.
  - reflexivity.
Defined.

Lemma replace_project_spec `{Python} (sel_proj new : value) (items options : list value) :
  proj_names items = Ok options ->
  exists updated_links,
    replace_project sel_proj new items = Ok updated_links
    /\ length updated_links = length items
    /\ (forall i l n, items !! i = Some l -> getitem l (py "name") = Ok n ->
          updated_links !! i = Some (if py_eq n sel_proj then new else l)).
Proof.
  revert options. induction items as [|l items IH]; simpl; intros options Hn.
  - exists []. repeat split. intros i l n Hi. rewrite lookup_nil in Hi. discriminate.
  - destruct (getitem l (py "name")) as [n|e] eqn:Hl; simpl in Hn; [|discriminate].
    destruct (proj_names items) as [ns|e]; simpl in Hn; [|discriminate].
    destruct (IH ns eq_refl) as (more & -> & Hlen & Hat). simpl.
    eexists. split; [reflexivity|]. split; [simpl; congruence|].
    intros [|i] l' n' Hi Hn'; simpl in Hi |- *.
    + injection Hi as <-. rewrite Hl in Hn'. injection Hn' as <-. reflexivity.
    + eapply Hat; eassumption.
Qed.

(** X9. Once its form is drawn for a project that is found, and the new
    sublinks decode, [btn_upd_proj] sends one UPDATE whose document has as
    many projects as the area had: at every place where the name of the
    project equals the selected one (at all of them, when the name occurs
    more than once) stands the new project, and at every other place the
    project that was there. *)
Theorem update_project_replaces_all `{Python} `{Snowflake}
    (areas : list area) (sel_area : str) (sel_proj : value)
    (new_proj_name text : str) (s : session)
    (area_obj : area) (items options : list value) (proj_obj new_sublinks : value) :
  find_area areas sel_area = Ok area_obj ->
  truthy (links area_obj) = true ->
  py_iter (links area_obj) = Ok items ->
  proj_names items = Ok options ->
  find_project sel_proj items = Ok (Some proj_obj) ->
  json_loads text = Ok new_sublinks ->
  let new := VDict [(py "name", VStr new_proj_name); (py "sublinks", new_sublinks)] in
  exists updated_links out s',
    btn_upd_proj areas sel_area sel_proj new_proj_name text s = Ok (Clicked out s')
    /\ sent s' = sent s ++ [UPDATE_LINKS (json_dumps (VList updated_links)) sel_area]
    /\ length updated_links = length items
    /\ (forall i l n, items !! i = Some l -> getitem l (py "name") = Ok n ->
          updated_links !! i = Some (if py_eq n sel_proj then new else l)).
Proof.
  intros Harea Htruthy Hitems Hnames Hfound Htext new.
  destruct (replace_project_spec sel_proj new items options Hnames)
    as (updated_links & Hupd & Hlen & Hat).
  exists updated_links. unfold btn_upd_proj.
  rewrite Harea. simpl. rewrite Htruthy, Hitems. simpl. rewrite Hnames. simpl.
  rewrite Hfound. simpl. rewrite Htext. fold new. rewrite Hupd.
  unfold session_sql.
  destruct (execute _ (rows s)); eexists; eexists;
    (split; [reflexivity|]); (split; [reflexivity|]); auto.
Qed.

Lemma update_project_replaces_all_witness :
  let new := VDict [(py "name", VStr (py "Forecast")); (py "sublinks", VList [])] in
  exists updated_links out s',
    @btn_upd_proj Reference.python Reference.snowflake [Example.budget]
      (py "Finance") (VStr (py "Budgeting")) (py "Forecast") (py "[]") Example.s1
    = Ok (Clicked out s')
    /\ sent s' = sent Example.s1
                 ++ [UPDATE_LINKS (Reference.dumps (VList updated_links)) (py "Finance")]
    /\ length updated_links = 3%nat
    /\ (forall i l n,
          [Example.project (py "Budgeting"); Example.project (py "Payroll");
           Example.project (py "Budgeting")] !! i = Some l ->
          getitem l (py "name") = Ok n ->
          updated_links !! i
          = Some (if Reference.equal n (VStr (py "Budgeting")) then new else l)).
Proof.
  apply (@update_project_replaces_all Reference.python Reference.snowflake
           [Example.budget] (py "Finance") (VStr (py "Budgeting"))
           (py "Forecast") (py "[]") Example.s1 Example.budget
           [Example.project (py "Budgeting"); Example.project (py "Payroll");
            Example.project (py "Budgeting")]
           [VStr (py "Budgeting"); VStr (py "Payroll"); VStr (py "Budgeting")]
           (Example.project (py "Budgeting")) (VList [])).
  - vm_compute. reflexivity.
  - reflexivity.
  - reflexivity.
  - vm_compute. reflexivity.
  - vm_compute. reflexivity.
  - vm_compute. reflexivity.
Defined.

(** ** Areas: how the handlers compose *)

(** X10. An area is created from a text that decodes to a list, whose
    document the warehouse reads (the constant built from it is well
    formed and PARSE_JSON accepts it), under a name without quote and
    backslash that no row carries, in a table of unique names; it is then
    deleted under that name.  Both clicks show their success message, and
    the table is as it was before the two clicks. *)
Theorem add_then_delete_area `{Python} `{Snowflake}
    (new_area text : str) (s : session) (items : list value) (j : str) (v : value) :
  json_loads text = Ok (VList items) ->
  plain new_area ->
  constant (escape_quotes (json_dumps (VList items))) = Some j ->
  PARSE_JSON j = Some v ->
  new_area ∉ names (rows s) ->
  NoDup (names (rows s)) ->
  let added := btn_add_area new_area text s in
  let deleted := btn_del_area new_area added.2 in
  added.1 = [st_success (py "Área adicionada com sucesso!"); st_rerun]
  /\ (new_area ∈ names (rows added.2))
  /\ deleted.1 = [st_success (py "Área deletada com sucesso!"); st_rerun]
  /\ rows deleted.2 = rows s.
Proof.
  intros Htext Hplain Hj Hv Hnew Hnd.
  pose proof (constant_plain new_area Hplain) as Hc.
  assert (Hkey : violates_key (rows s ++ [{| NAME := new_area; LINKS := stored v |}])
                 = false).
  { unfold violates_key. apply andb_false_iff. right.
    apply negb_false_iff, bool_decide_eq_true.
    unfold names in *. rewrite map_app. simpl.
    apply NoDup_app. split; [exact Hnd|]. split; [|apply NoDup_singleton].
    intros x Hx Hin. apply list_elem_of_singleton in Hin as ->. contradiction. }
  unfold btn_add_area, btn_del_area, session_sql, execute.
  rewrite Htext, Hc, Hj, Hv. simpl. rewrite Hkey. simpl.
  split; [reflexivity|]. split.
  - unfold names. rewrite map_app. apply elem_of_app. right. apply list_elem_of_here.
  - split; [reflexivity|].
    rewrite filter_app, delete_no_match by exact Hnew.
    rewrite filter_cons_False by (simpl; tauto). apply app_nil_r.
Qed.

Lemma add_then_delete_area_witness :
  let added := @btn_add_area Reference.python Reference.snowflake
                 (py "Vendas") (py "[]") Example.s0 in
  let deleted := @btn_del_area Reference.snowflake (py "Vendas") added.2 in
  added.1 = [st_success (py "Área adicionada com sucesso!"); st_rerun]
  /\ (py "Vendas" ∈ names (rows added.2))
  /\ deleted.1 = [st_success (py "Área deletada com sucesso!"); st_rerun]
  /\ rows deleted.2 = rows Example.s0.
Proof.
  apply (@add_then_delete_area Reference.python Reference.snowflake
           (py "Vendas") (py "[]") Example.s0 [] (py "[]") (VList [])).
  - vm_compute. reflexivity.
  - vm_compute. repeat constructor; discriminate.
  - vm_compute. reflexivity.
  - vm_compute. reflexivity.
  - vm_compute. not_listed.
  - vm_compute. apply NoDup_cons. split; [not_listed|].
    apply NoDup_cons. split; [apply not_elem_of_nil|apply NoDup_nil_2].
Defined.

(** X11. On a table the loader reads, after [btn_del_area] under a name
    without quote and backslash the next load returns; it lists no area of
    that name, and exactly the areas of another name that were listed
    before. *)
Theorem delete_area_then_list `{Python} `{Snowflake}
    (sel : str) (s : session) (before : list area) :
  plain sel ->
  load_areas_from_sf (rows s) = Ok before ->
  let after := btn_del_area sel s in
  after.1 = [st_success (py "Área deletada com sucesso!"); st_rerun]
  /\ exists areas,
       load_areas_from_sf (rows after.2) = Ok areas
       /\ (sel ∉ map name areas)
       /\ (forall a, a ∈ areas <-> a ∈ before /\ name a <> sel).
Proof.
  intros Hsel Hload after. subst after.
  rewrite (btn_del_area_rows sel sel s (constant_plain _ Hsel)).
  split; [reflexivity|]. cbn [snd rows].
  destruct (load_areas_delete (rows s) before sel Hload) as (areas & Hareas & Hin).
  exists areas. split; [exact Hareas|]. split; [|exact Hin].
  intros Hname. apply list_elem_of_In, in_map_iff in Hname as (a & Ha & Hlisted).
  apply list_elem_of_In, Hin in Hlisted as [_ Hne]. contradiction.
Qed.

Lemma delete_area_then_list_witness :
  (@btn_del_area Reference.snowflake (py "Finance") Example.s0).1
  = [st_success (py "Área deletada com sucesso!"); st_rerun]
  /\ exists areas,
       @load_areas_from_sf Reference.python
         (rows (@btn_del_area Reference.snowflake (py "Finance") Example.s0).2) = Ok areas
       /\ (py "Finance" ∉ map name areas)
       /\ (forall a, a ∈ areas <->
             a ∈ [{| name := py "Arquivo"; links := VList [] |};
                  {| name := py "Finance"; links := VList [] |}]
             /\ name a <> py "Finance").
Proof.
  apply (@delete_area_then_list Reference.python Reference.snowflake
           (py "Finance") Example.s0).
  - vm_compute. repeat constructor; discriminate.
  - vm_compute. reflexivity.
Defined.




(** ** The listing and the order of insertion *)

(** X13. Two tables with the same rows, inserted in different orders:
    when the loader returns on one it returns on the other, with the same
    names in the same order; when no name occurs twice the two loads give
    the same, links and exceptions included. *)
Theorem listing_ignores_insertion_order `{Python} (t t' : table) :
  t ≡ₚ t' ->
  (forall areas, load_areas_from_sf t = Ok areas ->
     exists areas', load_areas_from_sf t' = Ok areas'
                    /\ map name areas' = map name areas)
  /\ (NoDup (names t) -> load_areas_from_sf t = load_areas_from_sf t').
Proof.
  intros Hp. split.
  - intros areas Hload.
    destruct (proj2 (load_areas_returns t')) as [areas' Hload'].
    { rewrite <- Hp. apply (load_areas_readable t areas Hload). }
    exists areas'. split; [exact Hload'|].
    symmetry. apply (list_areas_order_independent t t' areas areas' Hp Hload Hload').
  - intros Hnd. unfold load_areas_from_sf. f_equal.
    apply (StronglySorted_unique_strong name_le).
    + intros r1 r2 Hr1 Hr2 H12 H21. unfold name_le in *.
      apply Is_true_true in H12, H21.
      pose proof (str_leb_antisym _ _ H12 H21) as Hname.
      rewrite select_permutation in Hr1, Hr2. rewrite <- Hp in Hr2. unfold names in Hnd.
      apply list_elem_of_lookup in Hr1 as [i Hi], Hr2 as [k Hk].
      assert (Hik : i = k).
      { apply (NoDup_lookup (NAME <$> t) i k (NAME r1)); [exact Hnd| |].
        - rewrite list_lookup_fmap, Hi. reflexivity.
        - rewrite list_lookup_fmap, Hk. simpl. congruence. }
      subst k. congruence.
    + apply select_sorted.
    + apply select_sorted.
    + rewrite !select_permutation. exact Hp.
Qed.

Lemma listing_ignores_insertion_order_witness :
  (forall areas,
     @load_areas_from_sf Reference.python [Example.finance; Example.legacy] = Ok areas ->
     exists areas',
       @load_areas_from_sf Reference.python [Example.legacy; Example.finance] = Ok areas'
       /\ map name areas' = map name areas)
  /\ @load_areas_from_sf Reference.python [Example.finance; Example.legacy]
     = @load_areas_from_sf Reference.python [Example.legacy; Example.finance].
Proof.
  destruct (@listing_ignores_insertion_order Reference.python
              [Example.finance; Example.legacy] [Example.legacy; Example.finance])
    as [Hnames Hall].
  - apply perm_swap.
  - split; [exact Hnames|]. apply Hall.
    vm_compute. apply NoDup_cons. split; [not_listed|].
    apply NoDup_cons. split; [apply not_elem_of_nil|apply NoDup_nil_2].
Defined.

(** ** The constant of the links *)

(** X14. For a text without a backslash, the constant that [escape_quotes]
    builds denotes the text itself, quotes included. *)
Theorem escape_quotes_keeps_text (t : str) :
  Forall (fun c => c <> 92) t -> constant (escape_quotes t) = Some t.
Proof. apply constant_escape_quotes. Qed.

Lemma escape_quotes_keeps_text_witness :
  constant (escape_quotes (py "Caixa d'Agua")) = Some (py "Caixa d'Agua").
Proof.
  apply escape_quotes_keeps_text. vm_compute. repeat constructor; discriminate.
Defined.

(** ** Round trips with the reference libraries *)

(** X15. With the reference libraries, an area created under a name
    without quote and backslash that no row carries, in a table of unique
    names, with links that hold no number and only printable ASCII other
    than the double quote and the backslash, is answered with the success
    message; where the areas were listed before the click, the next load
    lists the area with exactly the links its text decodes to, beside the
    areas that were listed. *)
Theorem create_then_list_literal (new_area text : str) (s : session)
    (items : list value) :
  Reference.loads text = Ok (VList items) ->
  literal_value (VList items) = true ->
  plain new_area ->
  new_area ∉ names (rows s) ->
  NoDup (names (rows s)) ->
  let after := @btn_add_area Reference.python Reference.snowflake new_area text s in
  after.1 = [st_success (py "Área adicionada com sucesso!"); st_rerun]
  /\ (forall before,
        @load_areas_from_sf Reference.python (rows s) = Ok before ->
        exists areas,
          @load_areas_from_sf Reference.python (rows after.2) = Ok areas
          /\ {| name := new_area; links := VList items |} ∈ areas
          /\ (forall a, a ∈ before -> a ∈ areas)).
Proof. apply create_area_round_trip. Qed.

Lemma create_then_list_literal_witness :
  let after := @btn_add_area Reference.python Reference.snowflake
                 (py "Vendas") Example.sublinks Example.s0 in
  after.1 = [st_success (py "Área adicionada com sucesso!"); st_rerun]
  /\ (forall before,
        @load_areas_from_sf Reference.python (rows Example.s0) = Ok before ->
        exists areas,
          @load_areas_from_sf Reference.python (rows after.2) = Ok areas
          /\ {| name := py "Vendas";
                links := VList [VDict [(py "url", VStr (py "https://x/app"));
                                       (py "tutorial_url", VStr (py "https://x/doc"))]] |}
             ∈ areas
          /\ (forall a, a ∈ before -> a ∈ areas)).
Proof.
  apply create_then_list_literal.
  - vm_compute. reflexivity.
  - vm_compute. reflexivity.
  - vm_compute. repeat constructor; discriminate.
  - vm_compute. not_listed.
  - vm_compute. apply NoDup_cons. split; [not_listed|].
    apply NoDup_cons. split; [apply not_elem_of_nil|apply NoDup_nil_2].
Defined.

(** X16. With the reference libraries, replacing the links of an area of
    a name without quote and backslash, in a table of unique names, under
    the same name, by such links is answered with the success message and
    leaves the rows of other names as they were; where the areas were
    listed before the click, the next load lists the area with exactly the
    links the text decodes to, beside the areas of other names. *)
Theorem replace_then_list_literal (sel text : str) (s : session) (parsed : value) :
  Reference.loads text = Ok parsed ->
  literal_value parsed = true ->
  plain sel ->
  sel ∈ names (rows s) ->
  NoDup (names (rows s)) ->
  let after := @btn_upd_area Reference.python Reference.snowflake sel sel text s in
  after.1 = [st_success (py "Área atualizada com sucesso!"); st_rerun]
  /\ (forall before,
        @load_areas_from_sf Reference.python (rows s) = Ok before ->
        exists areas,
          @load_areas_from_sf Reference.python (rows after.2) = Ok areas
          /\ {| name := sel; links := parsed |} ∈ areas
          /\ (forall a, a ∈ before -> name a <> sel -> a ∈ areas))
  /\ (forall r, r ∈ rows s -> NAME r <> sel -> r ∈ rows after.2).
Proof. apply replace_area_round_trip. Qed.

Lemma replace_then_list_literal_witness :
  let after := @btn_upd_area Reference.python Reference.snowflake
                 (py "Finance") (py "Finance") Example.sublinks Example.s0 in
  after.1 = [st_success (py "Área atualizada com sucesso!"); st_rerun]
  /\ (forall before,
        @load_areas_from_sf Reference.python (rows Example.s0) = Ok before ->
        exists areas,
          @load_areas_from_sf Reference.python (rows after.2) = Ok areas
          /\ {| name := py "Finance";
                links := VList [VDict [(py "url", VStr (py "https://x/app"));
                                       (py "tutorial_url", VStr (py "https://x/doc"))]] |}
             ∈ areas
          /\ (forall a, a ∈ before -> name a <> py "Finance" -> a ∈ areas))
  /\ (forall r, r ∈ rows Example.s0 -> NAME r <> py "Finance" -> r ∈ rows after.2).
Proof.
  apply replace_then_list_literal.
  - vm_compute. reflexivity.
  - vm_compute. reflexivity.
  - vm_compute. repeat constructor; discriminate.
  - vm_compute. apply list_elem_of_here.
  - vm_compute. apply NoDup_cons. split; [not_listed|].
    apply NoDup_cons. split; [apply not_elem_of_nil|apply NoDup_nil_2].
Defined.

Lemma draw_expanders_raises (shown : list area) (a : area) :
  a ∈ shown -> (draw_area a).2 <> None ->
  forall idx, (draw_expanders idx shown).2 <> None.
Proof.
  induction shown as [|b shown IH]; intros Hin Hraise idx; [inversion Hin|].
  simpl. destruct (draw_area b).2 as [x|] eqn:Hb; simpl; [discriminate|].
  apply IH; [|exact Hraise].
  apply elem_of_cons in Hin as [->|Hin]; [congruence|exact Hin].
Qed.

(** X17. With the reference libraries, in a table of unique names whose
    areas were listed: links that are not a list (and not the empty string
    or the empty dict), that hold no number and only printable ASCII other
    than the double quote and the backslash, pass the update form of an
    area of a name without quote and backslash, since the form has no
    check of their shape; the next load lists the area with them, and the
    view tab of a user who sees every area ends with an exception. *)
Theorem non_list_links_break_the_view (sel text : str) (s : session)
    (parsed : value) (before : list area) :
  Reference.loads text = Ok parsed ->
  literal_value parsed = true ->
  isinstance_list parsed = false ->
  parsed <> VStr [] ->
  parsed <> VDict [] ->
  plain sel ->
  sel ∈ names (rows s) ->
  NoDup (names (rows s)) ->
  @load_areas_from_sf Reference.python (rows s) = Ok before ->
  let after := @btn_upd_area Reference.python Reference.snowflake sel sel text s in
  after.1 = [st_success (py "Área atualizada com sucesso!"); st_rerun]
  /\ exists areas,
       @load_areas_from_sf Reference.python (rows after.2) = Ok areas
       /\ {| name := sel; links := parsed |} ∈ areas
       /\ (draw_area {| name := sel; links := parsed |}).2 = Some TypeError
       /\ (draw_expanders 0 (areas_to_show All areas)).2 <> None.
Proof.
  intros Htext Hlit Hshape Hstr Hdict Hplain Hsel Hnd Hload after.
  destruct (replace_area_round_trip sel text s parsed Htext Hlit Hplain Hsel Hnd)
    as (Hout & Hlisted & _).
  destruct (Hlisted before Hload) as (areas & Hareas & Hin & _).
  assert (Hraise : (draw_area {| name := sel; links := parsed |}).2 = Some TypeError).
  { unfold draw_area. simpl.
    destruct parsed as [ |b|z|n|[|c t]|items|[|[k x] d]];
      try discriminate; try reflexivity; congruence. }
  split; [exact Hout|]. exists areas.
  split; [exact Hareas|]. split; [exact Hin|]. split; [exact Hraise|].
  apply (draw_expanders_raises _ _ Hin). rewrite Hraise. discriminate.
Qed.

Lemma non_list_links_break_the_view_witness :
  let after := @btn_upd_area Reference.python Reference.snowflake
                 (py "Finance") (py "Finance") (py "null") Example.s0 in
  after.1 = [st_success (py "Área atualizada com sucesso!"); st_rerun]
  /\ exists areas,
       @load_areas_from_sf Reference.python (rows after.2) = Ok areas
       /\ {| name := py "Finance"; links := VNone |} ∈ areas
       /\ (draw_area {| name := py "Finance"; links := VNone |}).2 = Some TypeError
       /\ (draw_expanders 0 (areas_to_show All areas)).2 <> None.
Proof.
  apply (non_list_links_break_the_view (py "Finance") (py "null") Example.s0 VNone
           [{| name := py "Arquivo"; links := VList [] |};
            {| name := py "Finance"; links := VList [] |}]).
  - vm_compute. reflexivity.
  - reflexivity.
  - reflexivity.
  - discriminate.
  - discriminate.
  - vm_compute. repeat constructor; discriminate.
  - vm_compute. apply list_elem_of_here.
  - vm_compute. apply NoDup_cons. split; [not_listed|].
    apply NoDup_cons. split; [apply not_elem_of_nil|apply NoDup_nil_2].
  - vm_compute. reflexivity.
Defined.

(** ** Projects: from the click to the next listing *)

Lemma find_area_spec (areas : list area) (sel_area : str) (area_obj : area) :
  find_area areas sel_area = Ok area_obj ->
  area_obj ∈ areas /\ name area_obj = sel_area.
Proof.
  unfold find_area.
  destruct (List.find _ areas) as [a|] eqn:Hfind; [|discriminate].
  intros [= <-]. apply find_some in Hfind as [Hin Heq].
  split; [apply list_elem_of_In, Hin|].
  unfold str_eqb in Heq. apply bool_decide_eq_true in Heq. exact Heq.
Qed.

(** An area that is listed has a row. *)
Lemma listed_area_row `{Python} (t : table) (areas : list area) (sel_area : str)
    (area_obj : area) :
  load_areas_from_sf t = Ok areas ->
  find_area areas sel_area = Ok area_obj ->
  sel_area ∈ names t.
Proof.
  intros Hload Hfind. apply find_area_spec in Hfind as [Hin <-].
  apply (load_areas_elem t areas Hload) in Hin as (r & Hr & Hn & _).
  rewrite Hn. unfold names. apply list_elem_of_In, in_map.
  apply list_elem_of_In, Hr.
Qed.

(** With the reference libraries, an UPDATE of the links of a listed area
    of a plain name, by a literal document whose text holds no quote, is
    accepted; the area is then listed with the document, and the rows of
    other names are kept. *)
Lemma update_links_round_trip (v : value) (sel : str) (s : session)
    (before : list area) :
  literal_value v = true ->
  plain (Reference.dumps v) ->
  plain sel ->
  sel ∈ names (rows s) ->
  @load_areas_from_sf Reference.python (rows s) = Ok before ->
  exists s' areas,
    @session_sql Reference.snowflake (UPDATE_LINKS (Reference.dumps v) sel) s = (Ok tt, s')
    /\ @load_areas_from_sf Reference.python (rows s') = Ok areas
    /\ {| name := sel; links := v |} ∈ areas
    /\ (forall a, a ∈ before -> name a <> sel -> a ∈ areas)
    /\ (forall r, r ∈ rows s -> NAME r <> sel -> r ∈ rows s').
Proof.
  intros Hlit Hdoc Hname Hsel Hload.
  destruct (@load_areas_update Reference.python (rows s) before sel sel
              (@stored Reference.snowflake v) v Hload (stored_literal v Hlit))
    as (areas & Hareas & Hin & Hframe & _).
  eexists. exists areas. split.
  - apply (@session_sql_update_links Reference.snowflake _ _ (Reference.dumps v) sel v).
    + apply constant_plain, Hdoc.
    + apply constant_plain, Hname.
    + apply parse_json_literal, Hlit.
  - cbn [rows]. rewrite update_links_rows.
    split; [exact Hareas|]. split; [apply Hin, Hsel|]. split; [exact Hframe|].
    intros r Hr Hne. apply update_frame; assumption.
Qed.

(** X18. With the reference libraries, on a page whose areas were loaded
    from the table: a project added to an area whose name holds no quote
    and no backslash, when the links with the new project are literal and
    their text holds no quote (the handler does not escape it), is
    accepted with the success message; the next load lists the area with
    its projects followed by the new one, beside the areas of other names,
    and the rows of other names are kept. *)
Theorem add_project_then_list (areas : list area) (sel_area proj_name text : str)
    (s : session) (area_obj : area) (items : list value) (new_sublinks : value) :
  @load_areas_from_sf Reference.python (rows s) = Ok areas ->
  find_area areas sel_area = Ok area_obj ->
  links area_obj = VList items ->
  Reference.loads text = Ok new_sublinks ->
  let updated := VList (items ++ [VDict [(py "name", VStr proj_name);
                                         (py "sublinks", new_sublinks)]]) in
  literal_value updated = true ->
  plain (Reference.dumps updated) ->
  plain sel_area ->
  let after := @btn_add_proj Reference.python Reference.snowflake
                 areas sel_area proj_name text s in
  after.1 = [st_success (py "Projeto adicionado com sucesso!"); st_rerun]
  /\ (exists listed,
        @load_areas_from_sf Reference.python (rows after.2) = Ok listed
        /\ {| name := sel_area; links := updated |} ∈ listed
        /\ (forall a, a ∈ areas -> name a <> sel_area -> a ∈ listed))
  /\ (forall r, r ∈ rows s -> NAME r <> sel_area -> r ∈ rows after.2).
Proof.
  intros Hload Harea Hlinks Htext updated Hlit Hdoc Hname.
  pose proof (listed_area_row (rows s) areas sel_area area_obj Hload Harea) as Hsel.
  destruct (update_links_round_trip updated sel_area s areas Hlit Hdoc Hname Hsel Hload)
    as (s' & listed & Hsql & Hlisted & Hin & Hkept & Hframe).
  unfold btn_add_proj. simpl json_loads. rewrite Htext, Harea. simpl bind.
  rewrite Hlinks. simpl list_add. cbv iota beta.
  change (@json_dumps Reference.python) with Reference.dumps.
  fold updated. rewrite Hsql. simpl. split; [reflexivity|]. split; [|exact Hframe].
  exists listed. auto.
Qed.

Lemma add_project_then_list_witness :
  let updated := VList [VDict [(py "name", VStr (py "Payroll"));
                               (py "sublinks", VList [])]] in
  let areas := [{| name := py "Arquivo"; links := VList [] |};
                {| name := py "Finance"; links := VList [] |}] in
  let after := @btn_add_proj Reference.python Reference.snowflake
                 areas (py "Finance") (py "Payroll") (py "[]") Example.s0 in
  after.1 = [st_success (py "Projeto adicionado com sucesso!"); st_rerun]
  /\ (exists listed,
        @load_areas_from_sf Reference.python (rows after.2) = Ok listed
        /\ {| name := py "Finance"; links := updated |} ∈ listed
        /\ (forall a, a ∈ areas -> name a <> py "Finance" -> a ∈ listed))
  /\ (forall r, r ∈ rows Example.s0 -> NAME r <> py "Finance" -> r ∈ rows after.2).
Proof.
  apply (add_project_then_list
           [{| name := py "Arquivo"; links := VList [] |};
            {| name := py "Finance"; links := VList [] |}]
           (py "Finance") (py "Payroll") (py "[]") Example.s0
           {| name := py "Finance"; links := VList [] |} [] (VList [])).
  - vm_compute. reflexivity.
  - vm_compute. reflexivity.
  - reflexivity.
  - vm_compute. reflexivity.
  - vm_compute. reflexivity.
  - vm_compute. repeat constructor; discriminate.
  - vm_compute. repeat constructor; discriminate.
Defined.

Lemma without_project_names `{Python} (sel_proj : value) (items kept : list value) :
  without_project sel_proj items = Ok kept ->
  exists options, proj_names items = Ok options.
Proof.
  revert kept. induction items as [|l items IH]; simpl; intros kept Hk.
  - exists []. reflexivity.
  - destruct (getitem l (py "name")) as [n|e]; simpl in *; [|discriminate].
    destruct (without_project sel_proj items) as [k|e]; simpl in Hk; [|discriminate].
    destruct (IH k eq_refl) as (ns & ->). simpl. eexists. reflexivity.
Qed.

(** X19. With the reference libraries, on a page whose areas were loaded
    from the table: deleting a project of an area whose name holds no
    quote and no backslash, when the projects that stay are literal and
    their text holds no quote, is accepted; the next load lists the area
    with exactly the projects that the handler keeps (those whose name is
    not equal to the selected one), beside the areas of other names, and
    the rows of other names are kept. *)
Theorem delete_project_then_list (areas : list area) (sel_area : str) (sel_proj : value)
    (s : session) (area_obj : area) (items kept : list value) :
  @load_areas_from_sf Reference.python (rows s) = Ok areas ->
  find_area areas sel_area = Ok area_obj ->
  links area_obj = VList items ->
  @without_project Reference.python sel_proj items = Ok kept ->
  literal_value (VList kept) = true ->
  plain (Reference.dumps (VList kept)) ->
  plain sel_area ->
  exists s' listed,
    @btn_del_proj Reference.python Reference.snowflake areas sel_area sel_proj s
    = Ok ([st_rerun], s')
    /\ @load_areas_from_sf Reference.python (rows s') = Ok listed
    /\ {| name := sel_area; links := VList kept |} ∈ listed
    /\ (forall a, a ∈ areas -> name a <> sel_area -> a ∈ listed)
    /\ (forall r, r ∈ rows s -> NAME r <> sel_area -> r ∈ rows s').
Proof.
  intros Hload Harea Hlinks Hkept Hlit Hdoc Hname.
  pose proof (listed_area_row (rows s) areas sel_area area_obj Hload Harea) as Hsel.
  destruct (update_links_round_trip (VList kept) sel_area s areas
              Hlit Hdoc Hname Hsel Hload)
    as (s' & listed & Hsql & Hlisted & Hin & Hothers & Hframe).
  destruct (without_project_names sel_proj items kept Hkept) as (options & Hopt).
  exists s', listed. split; [|auto].
  unfold btn_del_proj, del_proj_form. rewrite Harea. cbn [bind]. rewrite Hlinks.
  cbn [py_iter bind]. rewrite Hopt. cbn [bind fst]. rewrite Hlinks.
  cbn [py_iter bind]. rewrite Hkept.
  change (@json_dumps Reference.python) with Reference.dumps.
  rewrite Hsql. reflexivity.
Qed.

Lemma delete_project_then_list_witness :
  exists s' listed,
    @btn_del_proj Reference.python Reference.snowflake [Example.budget]
      (py "Finance") (VStr (py "Budgeting")) Example.s1
    = Ok ([st_rerun], s')
    /\ @load_areas_from_sf Reference.python (rows s') = Ok listed
    /\ {| name := py "Finance"; links := VList [Example.project (py "Payroll")] |}
       ∈ listed
    /\ (forall a, a ∈ [Example.budget] -> name a <> py "Finance" -> a ∈ listed)
    /\ (forall r, r ∈ rows Example.s1 -> NAME r <> py "Finance" -> r ∈ rows s').
Proof.
  apply (delete_project_then_list [Example.budget] (py "Finance")
           (VStr (py "Budgeting")) Example.s1 Example.budget
           [Example.project (py "Budgeting"); Example.project (py "Payroll");
            Example.project (py "Budgeting")]).
  - vm_compute. reflexivity.
  - vm_compute. reflexivity.
  - reflexivity.
  - vm_compute. reflexivity.
  - vm_compute. reflexivity.
  - vm_compute. repeat constructor; discriminate.
  - vm_compute. repeat constructor; discriminate.
Defined.

Lemma find_project_listed `{Python} (sel_proj : value) (items options : list value) :
  proj_names items = Ok options ->
  sel_proj ∈ options ->
  py_eq sel_proj sel_proj = true ->
  exists proj_obj n,
    find_project sel_proj items = Ok (Some proj_obj)
    /\ proj_obj ∈ items
    /\ getitem proj_obj (py "name") = Ok n
    /\ py_eq n sel_proj = true.
Proof.
  intros Hn Hin Hrefl. revert options Hn Hin.
  induction items as [|l items IH]; simpl; intros options Hn Hin.
  - injection Hn as <-. inversion Hin.
  - destruct (getitem l (py "name")) as [n|e] eqn:Hl; simpl in Hn |- *; [|discriminate].
    destruct (proj_names items) as [ns|e]; simpl in Hn; [|discriminate].
    injection Hn as <-.
    destruct (py_eq n sel_proj) eqn:Heq.
    + exists l, n. repeat split; [apply list_elem_of_here|exact Hl|exact Heq].
    + apply elem_of_cons in Hin as [->|Hin]; [congruence|].
      destruct (IH ns eq_refl Hin) as (p & m & Hfind & Hp & Hm & Hpm).
      exists p, m. repeat split; [exact Hfind|apply list_elem_of_further, Hp|exact Hm|exact Hpm].
Qed.

(** X20. The update form of a project never shows that the project was
    not found when the project selected is one of the names the form
    offers and is equal to itself: the button is always reached.  (The
    last hypothesis leaves out a name that [==] does not find equal to
    itself, as a NaN.) *)
Theorem update_form_finds_selected `{Python} `{Snowflake}
    (areas : list area) (sel_area : str) (sel_proj : value)
    (new_proj_name text : str) (s : session)
    (area_obj : area) (items options : list value) :
  find_area areas sel_area = Ok area_obj ->
  truthy (links area_obj) = true ->
  py_iter (links area_obj) = Ok items ->
  proj_names items = Ok options ->
  sel_proj ∈ options ->
  py_eq sel_proj sel_proj = true ->
  exists out s',
    btn_upd_proj areas sel_area sel_proj new_proj_name text s = Ok (Clicked out s').
Proof.
  intros Harea Htruthy Hitems Hnames Hin Hrefl.
  destruct (find_project_listed sel_proj items options Hnames Hin Hrefl)
    as (p & n & Hfind & _).
  unfold btn_upd_proj. rewrite Harea. simpl. rewrite Htruthy, Hitems. simpl.
  rewrite Hnames. simpl. rewrite Hfind. simpl.
  destruct (json_loads text) as [subs|e]; [|destruct e; eauto].
  destruct (replace_project _ _ _) as [updated|e]; [|eauto].
  destruct (session_sql _ s) as [[?|?] ?]; eauto.
Qed.

Lemma update_form_finds_selected_witness :
  exists out s',
    @btn_upd_proj Reference.python Reference.snowflake [Example.budget]
      (py "Finance") (VStr (py "Payroll")) (py "Folha") (py "[]") Example.s1
    = Ok (Clicked out s').
Proof.
  apply (@update_form_finds_selected Reference.python Reference.snowflake
           [Example.budget] (py "Finance") (VStr (py "Payroll")) (py "Folha") (py "[]")
           Example.s1 Example.budget
           [Example.project (py "Budgeting"); Example.project (py "Payroll");
            Example.project (py "Budgeting")]
           [VStr (py "Budgeting"); VStr (py "Payroll"); VStr (py "Budgeting")]).
  - vm_compute. reflexivity.
  - reflexivity.
  - reflexivity.
  - vm_compute. reflexivity.
  - apply list_elem_of_further, list_elem_of_here.
  - vm_compute. reflexivity.
Defined.

(** X21. Deleting, by its name, the project that was just added to the
    links of an area gives back the links the area had, when no project
    there has a name equal to the new one. *)
Theorem add_then_delete_project `{Python}
    (items options : list value) (proj_name : str) (new_sublinks : value) :
  proj_names items = Ok options ->
  Forall (fun o => py_eq o (VStr proj_name) = false) options ->
  py_eq (VStr proj_name) (VStr proj_name) = true ->
  without_project (VStr proj_name)
    (items ++ [VDict [(py "name", VStr proj_name); (py "sublinks", new_sublinks)]])
  = Ok items.
Proof.
  intros Hn Hfresh Hrefl. revert options Hn Hfresh.
  induction items as [|l items IH]; intros options Hn Hfresh.
  - simpl. rewrite Hrefl. reflexivity.
  - simpl in Hn |- *.
    destruct (getitem l (py "name")) as [n|e]; simpl in Hn |- *; [|discriminate].
    destruct (proj_names items) as [ns|e]; simpl in Hn; [|discriminate].
    injection Hn as <-. apply Forall_cons in Hfresh as [Hn Hns].
    rewrite (IH ns eq_refl Hns). simpl. rewrite Hn. reflexivity.
Qed.

Lemma add_then_delete_project_witness :
  @without_project Reference.python (VStr (py "Forecast"))
    ([Example.project (py "Budgeting"); Example.project (py "Payroll")]
     ++ [VDict [(py "name", VStr (py "Forecast")); (py "sublinks", VList [])]])
  = Ok [Example.project (py "Budgeting"); Example.project (py "Payroll")].
Proof.
  apply (@add_then_delete_project Reference.python
           [Example.project (py "Budgeting"); Example.project (py "Payroll")]
           [VStr (py "Budgeting"); VStr (py "Payroll")]).
  - vm_compute. reflexivity.
  - vm_compute. repeat constructor.
  - vm_compute. reflexivity.
Defined.
